(** * Financial tracker: the ledger, the balance engine and the guards

    A shallow embedding of [financial_tracker.py].  The embedded part is the
    ledger held in [self.data], [calculate_stats], the net-worth line of
    [refresh_ui], the in-memory side of [add_transaction_to_db] and
    [delete_transaction], the four actions [add_income],
    [transfer_paypal_to_bank], [transfer_usd_to_dzd] and [add_expense],
    the month navigation, the lists of the pages and the completion of the
    connection string.  Widgets, dialogs and the SQL statements are inputs
    or outputs of these functions: what an entry field parses to, whether
    the database block ran to its end, which dialog is shown. *)

From Stdlib Require Import ZArith Floats Ascii Permutation Sorted.
From stdpp Require Import gmap strings list fin_maps pretty.

(** ** Numbers

    Every amount in the program is a Python [float], an IEEE 754 binary64
    number.  The operations the program uses are gathered in one interface;
    its instance [float_arith] is the arithmetic the program runs.  What
    is proved for every instance holds for the program, and what depends on
    rounding is proved for [float_arith]. *)

Class Arith (num : Type) : Type := {
  num_zero : num;
  num_one : num;
  num_tenth : num;
  num_five : num;
  num_add : num -> num -> num;
  num_sub : num -> num -> num;
  num_mul : num -> num -> num;
  num_div : num -> num -> num;
  num_ltb : num -> num -> bool;
  num_eqb : num -> num -> bool
}.

Declare Scope num_scope.
Delimit Scope num_scope with num.
Notation "x + y" := (num_add x y) : num_scope.
Notation "x - y" := (num_sub x y) : num_scope.
Notation "x * y" := (num_mul x y) : num_scope.
Notation "x / y" := (num_div x y) : num_scope.
Notation "x <? y" := (num_ltb x y) : num_scope.
Notation "x =? y" := (num_eqb x y) : num_scope.

(** Python's [float]: the literals [0.1] and [5.0] are the binary64 numbers
    nearest to them ([0.1] is [0x1.999999999999ap-4]). *)
#[export] Instance float_arith : Arith float := {|
  num_zero := 0%float;
  num_one := 1%float;
  num_tenth := 0x1.999999999999ap-4%float;
  num_five := 5%float;
  num_add := PrimFloat.add;
  num_sub := PrimFloat.sub;
  num_mul := PrimFloat.mul;
  num_div := PrimFloat.div;
  num_ltb := PrimFloat.ltb;
  num_eqb := PrimFloat.eqb
|}.

(** ** Python values, exceptions and dictionaries *)

Inductive exn : Type :=
  | KeyError
  | TypeError
  | AttributeError
  | ValueError
  | ZeroDivisionError.

Inductive result (A : Type) : Type :=
  | Ok (a : A)
  | Raise (e : exn).
Arguments Ok {A} a.
Arguments Raise {A} e.

#[export] Instance result_ret : MRet result := fun A a => Ok a.
#[export] Instance result_bind : MBind result := fun A B f m =>
  match m with
  | Ok a => f a
  | Raise e => Raise e
  end.

Section Ledger.
Context {num : Type} {A : Arith num}.
Local Open Scope num_scope.

(** What a payload field holds: a string, a number, a boolean or [None]. *)
Inductive value : Type :=
  | VStr (s : string)
  | VNum (x : num)
  | VBool (b : bool)
  | VNone.

(** A transaction is a dictionary, as [json] gives it back. *)
Local Abbreviation txn := (gmap string value).

(** [t[k]] *)
Definition getitem (t : txn) (k : string) : result value :=
  match t !! k with
  | Some v => Ok v
  | None => Raise KeyError
  end.

(** [t.get(k, d)] *)
Definition get (t : txn) (k : string) (d : value) : value :=
  match t !! k with
  | Some v => v
  | None => d
  end.

(** Truth value of an object in an [if]. *)
Definition truthy (v : value) : bool :=
  match v with
  | VStr s => negb (String.eqb s "")
  | VNum x => negb (x =? num_zero)
  | VBool b => b
  | VNone => false
  end.

(** [v == 'literal'] *)
Definition eq_str (v : value) (s : string) : bool :=
  match v with
  | VStr s' => String.eqb s' s
  | _ => false
  end.

(** The operand of [+=] and [-=] on a float: a number, or a boolean read as
    1 or 0; a string or [None] raises [TypeError]. *)
Definition as_num (v : value) : result num :=
  match v with
  | VNum x => Ok x
  | VBool b => Ok (if b then num_one else num_zero)
  | VStr _ | VNone => Raise TypeError
  end.

(** [v.startswith(p)] *)
Definition startswith (v : value) (p : string) : result bool :=
  match v with
  | VStr s => Ok (String.prefix p s)
  | _ => Raise AttributeError
  end.

(** [acc += t[k]] and [acc -= t[k]] *)
Definition iadd (acc : num) (t : txn) (k : string) : result num :=
  v ← getitem t k; x ← as_num v; Ok (acc + x).
Definition isub (acc : num) (t : txn) (k : string) : result num :=
  v ← getitem t k; x ← as_num v; Ok (acc - x).

(** ** The application state *)

Record app : Type := {
  transactions : list txn;
  display_rate : num;
  selected_year : Z;
  selected_month : Z
}.

Definition set_transactions (l : list txn) (st : app) : app :=
  {| transactions := l;
     display_rate := display_rate st;
     selected_year := selected_year st;
     selected_month := selected_month st |}.

(** [f"{n:02d}"]: the decimal numeral, padded with a zero to two characters. *)
Definition format_02d (n : Z) : string :=
  let s := pretty n in
  if (String.length s <? 2)%nat then "0" +:+ s else s.

(** [get_monthly_key]: [f"{self.selected_year}-{self.selected_month:02d}"] *)
Definition get_monthly_key (st : app) : string :=
  pretty (selected_year st) +:+ "-" +:+ format_02d (selected_month st).

(** ** calculate_stats *)

Record stats : Type := {
  usd_savings : num;
  paypal_balance : num;
  dzd_cash : num;
  month_earned : num;
  month_spent_usd : num;
  month_spent_dzd : num
}.

Definition stats0 : stats :=
  {| usd_savings := num_zero; paypal_balance := num_zero; dzd_cash := num_zero;
     month_earned := num_zero; month_spent_usd := num_zero;
     month_spent_dzd := num_zero |}.

Definition set_usd_savings (v : num) (s : stats) : stats :=
  {| usd_savings := v; paypal_balance := paypal_balance s;
     dzd_cash := dzd_cash s; month_earned := month_earned s;
     month_spent_usd := month_spent_usd s;
     month_spent_dzd := month_spent_dzd s |}.
Definition set_paypal_balance (v : num) (s : stats) : stats :=
  {| usd_savings := usd_savings s; paypal_balance := v;
     dzd_cash := dzd_cash s; month_earned := month_earned s;
     month_spent_usd := month_spent_usd s;
     month_spent_dzd := month_spent_dzd s |}.
Definition set_dzd_cash (v : num) (s : stats) : stats :=
  {| usd_savings := usd_savings s; paypal_balance := paypal_balance s;
     dzd_cash := v; month_earned := month_earned s;
     month_spent_usd := month_spent_usd s;
     month_spent_dzd := month_spent_dzd s |}.
Definition set_month_earned (v : num) (s : stats) : stats :=
  {| usd_savings := usd_savings s; paypal_balance := paypal_balance s;
     dzd_cash := dzd_cash s; month_earned := v;
     month_spent_usd := month_spent_usd s;
     month_spent_dzd := month_spent_dzd s |}.
Definition set_month_spent_usd (v : num) (s : stats) : stats :=
  {| usd_savings := usd_savings s; paypal_balance := paypal_balance s;
     dzd_cash := dzd_cash s; month_earned := month_earned s;
     month_spent_usd := v;
     month_spent_dzd := month_spent_dzd s |}.
Definition set_month_spent_dzd (v : num) (s : stats) : stats :=
  {| usd_savings := usd_savings s; paypal_balance := paypal_balance s;
     dzd_cash := dzd_cash s; month_earned := month_earned s;
     month_spent_usd := month_spent_usd s;
     month_spent_dzd := v |}.

(** The first [if]/[elif] chain of the loop body: the three balances. *)
Definition balance_update (s : stats) (t : txn) : result stats :=
  ty ← getitem t "type";
  if eq_str ty "income" then
    if truthy (get t "to_paypal" (VBool false))
    then v ← iadd (paypal_balance s) t "net_amount"; Ok (set_paypal_balance v s)
    else v ← iadd (usd_savings s) t "net_amount"; Ok (set_usd_savings v s)
  else if eq_str ty "expense" then
    c ← getitem t "currency";
    if eq_str c "USD"
    then v ← isub (usd_savings s) t "amount"; Ok (set_usd_savings v s)
    else v ← isub (dzd_cash s) t "amount"; Ok (set_dzd_cash v s)
  else if eq_str ty "transfer_usd_dzd" then
    v ← isub (usd_savings s) t "amount_usd";
    w ← iadd (dzd_cash s) t "amount_dzd";
    Ok (set_dzd_cash w (set_usd_savings v s))
  else if eq_str ty "transfer_paypal_bank" then
    v ← isub (paypal_balance s) t "amount_sent";
    w ← iadd (usd_savings s) t "amount_received";
    Ok (set_usd_savings w (set_paypal_balance v s))
  else Ok s.

(** The second [if] of the loop body: the totals of the selected month. *)
Definition month_update (target_month : string) (s : stats) (t : txn)
  : result stats :=
  d ← getitem t "date";
  m ← startswith d target_month;
  if (m : bool) then
    ty ← getitem t "type";
    if eq_str ty "income" then
      v ← iadd (month_earned s) t "net_amount"; Ok (set_month_earned v s)
    else if eq_str ty "expense" then
      c ← getitem t "currency";
      if eq_str c "USD"
      then v ← iadd (month_spent_usd s) t "amount"; Ok (set_month_spent_usd v s)
      else v ← iadd (month_spent_dzd s) t "amount"; Ok (set_month_spent_dzd v s)
    else Ok s
  else Ok s.

(** The [for] loop over [self.data["transactions"]]. *)
Fixpoint stats_loop (target_month : string) (s : stats) (l : list txn)
  : result stats :=
  match l with
  | [] => Ok s
  | t :: l' =>
      s1 ← balance_update s t;
      s2 ← month_update target_month s1 t;
      stats_loop target_month s2 l'
  end.

Definition calculate_stats (st : app) : result stats :=
  stats_loop (get_monthly_key st) stats0 (transactions st).

(** ** The net worth shown by refresh_ui *)

(** [x / y] on floats: a zero divisor raises. *)
Definition truediv (x y : num) : result num :=
  if y =? num_zero then Raise ZeroDivisionError else Ok (x / y).

(** [stats['usd_savings'] + stats['paypal_balance']
     + (stats['dzd_cash']/disp_rate if disp_rate > 0 else 0)] *)
Definition total_nw (s : stats) (disp_rate : num) : result num :=
  c ← (if num_zero <? disp_rate then truediv (dzd_cash s) disp_rate
       else Ok num_zero);
  Ok (usd_savings s + paypal_balance s + c).

(** ** Appending and deleting *)

(** [add_transaction_to_db]: the transaction is appended to the list in
    memory, then the [try] block runs (INSERT, commit, [refresh_ui]);
    [saved] tells whether that block ran to its end.  The function returns
    [True] when it did and [False] from the [except] branch. *)
Definition add_transaction_to_db (t : txn) (saved : bool) (st : app)
  : app * bool :=
  (set_transactions (transactions st ++ [t]) st, saved).

(** [t.get("id") != tid] *)
Definition id_differs (tid : string) (t : txn) : bool :=
  negb (eq_str (get t "id" VNone) tid).

(** [delete_transaction]: [confirmed] is the answer to the yes/no dialog.
    The list in memory is rebuilt by the comprehension before the DELETE
    statement is tried, whatever that statement does afterwards. *)
Definition delete_transaction (tid : string) (confirmed : bool) (st : app)
  : app :=
  if confirmed
  then set_transactions (List.filter (id_differs tid) (transactions st)) st
  else st.

(** ** Dates and the dictionaries the actions build *)

Record date : Type := { year : Z; month : Z; day : Z }.

(** [datetime.now().strftime("%Y-%m-%d")] *)
Definition strftime_Ymd (d : date) : string :=
  pretty (year d) +:+ "-" +:+ format_02d (month d) +:+ "-"
  +:+ format_02d (day d).

Definition income_dict (id date category : string)
    (amount fee_amount net_amount : num) (to_paypal : bool) : txn :=
  list_to_map
    [("id", VStr id); ("date", VStr date); ("type", VStr "income");
     ("category", VStr category); ("amount", VNum amount);
     ("fee_amount", VNum fee_amount); ("net_amount", VNum net_amount);
     ("to_paypal", VBool to_paypal)].

Definition transfer_paypal_bank_dict (id date : string)
    (amount_sent fee_paid amount_received : num) : txn :=
  list_to_map
    [("id", VStr id); ("date", VStr date);
     ("type", VStr "transfer_paypal_bank"); ("amount_sent", VNum amount_sent);
     ("fee_paid", VNum fee_paid); ("amount_received", VNum amount_received)].

Definition transfer_usd_dzd_dict (id date : string)
    (amount_usd rate amount_dzd : num) : txn :=
  list_to_map
    [("id", VStr id); ("date", VStr date); ("type", VStr "transfer_usd_dzd");
     ("amount_usd", VNum amount_usd); ("rate", VNum rate);
     ("amount_dzd", VNum amount_dzd)].

Definition expense_dict (id date category : string) (amount : num)
    (currency : string) : txn :=
  list_to_map
    [("id", VStr id); ("date", VStr date); ("type", VStr "expense");
     ("category", VStr category); ("amount", VNum amount);
     ("currency", VStr currency)].

(** ** The four actions

    An entry field read through [float(...)] is given as what it parses to,
    [None] when [float] raises [ValueError]; a combo box or a check box is
    given as its text; [uuid4] and [now] are the fresh identifier and the
    wall-clock date.  Each action runs in a [try] whose bare [except] shows
    "Invalid Input" and changes nothing. *)

(** A message box.  [ShowErrorWith title intro] is an error box whose
    message is [intro] followed by the text of the exception caught, which
    the program does not determine. *)
Inductive dialog : Type :=
  | ShowInfo (title message : string)
  | ShowError (title message : string)
  | ShowErrorWith (title intro : string).

(** The text before the exception in [f"Failed to save:\n{e}"]. *)
Definition failed_to_save : string :=
  "Failed to save:" +:+ String "010"%char "".

Definition float_entry (e : option num) : result num :=
  match e with
  | Some x => Ok x
  | None => Raise ValueError
  end.

(** [sub in s] *)
Definition contains (sub s : string) : bool :=
  match String.index 0 sub s with
  | Some _ => true
  | None => false
  end.

Definition try_except (st : app) (body : result (app * dialog))
  : app * dialog :=
  match body with
  | Ok r => r
  | Raise _ => (st, ShowError "Error" "Invalid Input")
  end.

Definition add_income (entry_inc_amount entry_fee_val : option num)
    (combo_fee_type entry_inc_name chk_paypal_var : string)
    (uuid4 : string) (now : date) (saved : bool) (st : app) : app * dialog :=
  try_except st (
    val ← float_entry entry_inc_amount;
    fee ← (if contains "Manual" combo_fee_type then float_entry entry_fee_val
           else Ok (if contains "Upwork" combo_fee_type
                    then val * num_tenth else num_zero));
    let t := income_dict uuid4 (strftime_Ymd now) entry_inc_name
               val fee (val - fee) (String.eqb chk_paypal_var "on") in
    let '(st', ok) := add_transaction_to_db t saved st in
    Ok (st', if ok then ShowInfo "Success" "Income Added"
             else ShowErrorWith "Database Error" failed_to_save)).

(** The three funds checks, as the actions write them. *)
Definition insufficient_paypal (s : stats) (amt : num) : bool :=
  paypal_balance s <? amt.
Definition insufficient_usd (s : stats) (usd : num) : bool :=
  usd_savings s <? usd.
Definition insufficient_expense (curr : string) (s : stats) (amt : num)
  : bool :=
  (String.eqb curr "USD" && (usd_savings s <? amt))
  || (String.eqb curr "DZD" && (dzd_cash s <? amt)).

Definition transfer_paypal_to_bank (entry_pp_amount : option num)
    (combo_pp_method : string)
    (uuid4 : string) (now : date) (saved : bool) (st : app) : app * dialog :=
  try_except st (
    amt ← float_entry entry_pp_amount;
    let fee := if contains "Manual" combo_pp_method
               then num_five else num_zero in
    s ← calculate_stats st;
    if insufficient_paypal s amt
    then Ok (st, ShowError "Error" "Insufficient Funds")
    else
      let t := transfer_paypal_bank_dict uuid4 (strftime_Ymd now)
                 amt fee (amt - fee) in
      let '(st', ok) := add_transaction_to_db t saved st in
      Ok (st', if ok then ShowInfo "Success" "Transfer Complete"
               else ShowErrorWith "Database Error" failed_to_save)).

Definition transfer_usd_to_dzd (entry_ex_usd entry_ex_rate : option num)
    (uuid4 : string) (now : date) (saved : bool) (st : app) : app * dialog :=
  try_except st (
    usd ← float_entry entry_ex_usd;
    rate ← float_entry entry_ex_rate;
    s ← calculate_stats st;
    if insufficient_usd s usd
    then Ok (st, ShowError "Error" "Insufficient USD")
    else
      let t := transfer_usd_dzd_dict uuid4 (strftime_Ymd now)
                 usd rate (usd * rate) in
      let '(st', ok) := add_transaction_to_db t saved st in
      Ok (st', if ok then ShowInfo "Success" "Exchange Complete"
               else ShowErrorWith "Database Error" failed_to_save)).

Definition add_expense (entry_exp_amount : option num)
    (combo_exp_curr combo_exp_cat entry_exp_desc : string)
    (uuid4 : string) (now : date) (saved : bool) (st : app) : app * dialog :=
  try_except st (
    amt ← float_entry entry_exp_amount;
    let curr := if contains "USD" combo_exp_curr then "USD" else "DZD" in
    s ← calculate_stats st;
    if insufficient_expense curr s amt
    then Ok (st, ShowError "Error" "Insufficient Funds")
    else
      let t := expense_dict uuid4 (strftime_Ymd now)
                 (combo_exp_cat +:+ " - " +:+ entry_exp_desc) amt curr in
      let '(st', ok) := add_transaction_to_db t saved st in
      Ok (st', if ok then ShowInfo "Success" "Expense Added"
               else ShowErrorWith "Database Error" failed_to_save)).

(** One press of a button of the forms ("Add Income", "Process",
    "Confirm Sale", "Record"), with what the form holds. *)
Inductive action : Type :=
  | PressAddIncome (entry_inc_amount entry_fee_val : option num)
      (combo_fee_type entry_inc_name chk_paypal_var : string)
  | PressProcess (entry_pp_amount : option num)
      (combo_pp_method : string)
  | PressConfirmSale (entry_ex_usd entry_ex_rate : option num)
  | PressRecord (entry_exp_amount : option num)
      (combo_exp_curr combo_exp_cat entry_exp_desc : string).

Definition run (a : action) (uuid4 : string) (now : date) (saved : bool)
    (st : app) : app * dialog :=
  match a with
  | PressAddIncome amount fee_val fee_type name chk =>
      add_income amount fee_val fee_type name chk uuid4 now saved st
  | PressProcess amount method =>
      transfer_paypal_to_bank amount method uuid4 now saved st
  | PressConfirmSale usd rate =>
      transfer_usd_to_dzd usd rate uuid4 now saved st
  | PressRecord amount curr cat desc =>
      add_expense amount curr cat desc uuid4 now saved st
  end.

End Ledger.

(** ** The transactions of the data model

    The four kinds of transaction the actions create, with the fields their
    dictionaries carry; [encode] is the dictionary stored for each. *)

Inductive currency : Type := USD | DZD.

Definition currency_code (c : currency) : string :=
  match c with
  | USD => "USD"
  | DZD => "DZD"
  end.

Section Model.
Context {num : Type} {A : Arith num}.
Local Open Scope num_scope.

Inductive Transaction : Type :=
  | Income (id : string) (on : date) (source : string)
      (gross_amount fee_amount net_amount : num) (routed_to_paypal : bool)
  | Expense (id : string) (on : date) (label : string) (amount : num)
      (cur : currency)
  | TransferUsdToDzd (id : string) (on : date)
      (amount_usd rate amount_dzd : num)
  | TransferPaypalToBank (id : string) (on : date)
      (amount_sent fee amount_received : num).

Definition encode (t : Transaction) : gmap string value :=
  match t with
  | Income id on source gross fee net to_paypal =>
      income_dict id (strftime_Ymd on) source gross fee net to_paypal
  | Expense id on label amount cur =>
      expense_dict id (strftime_Ymd on) label amount (currency_code cur)
  | TransferUsdToDzd id on usd rate dzd =>
      transfer_usd_dzd_dict id (strftime_Ymd on) usd rate dzd
  | TransferPaypalToBank id on sent fee received =>
      transfer_paypal_bank_dict id (strftime_Ymd on) sent fee received
  end.

Definition txn_id (t : Transaction) : string :=
  match t with
  | Income id _ _ _ _ _ _ | Expense id _ _ _ _
  | TransferUsdToDzd id _ _ _ _ | TransferPaypalToBank id _ _ _ _ => id
  end.

Definition txn_date (t : Transaction) : date :=
  match t with
  | Income _ on _ _ _ _ _ | Expense _ on _ _ _
  | TransferUsdToDzd _ on _ _ _ | TransferPaypalToBank _ on _ _ _ => on
  end.

(** A sum of signed amounts, taken in ledger order from zero. *)
Inductive term : Type :=
  | Plus (x : num)
  | Minus (x : num).

Definition apply_term (acc : num) (tm : term) : num :=
  match tm with
  | Plus x => acc + x
  | Minus x => acc - x
  end.

Definition signed_sum (l : list term) : num := fold_left apply_term l num_zero.

(** What each transaction contributes to each account. *)
Definition bank_terms (t : Transaction) : list term :=
  match t with
  | Income _ _ _ _ _ net false => [Plus net]
  | Income _ _ _ _ _ _ true => []
  | Expense _ _ _ amount USD => [Minus amount]
  | Expense _ _ _ _ DZD => []
  | TransferUsdToDzd _ _ usd _ _ => [Minus usd]
  | TransferPaypalToBank _ _ _ _ received => [Plus received]
  end.

Definition paypal_terms (t : Transaction) : list term :=
  match t with
  | Income _ _ _ _ _ net true => [Plus net]
  | TransferPaypalToBank _ _ sent _ _ => [Minus sent]
  | _ => []
  end.

Definition cash_terms (t : Transaction) : list term :=
  match t with
  | Expense _ _ _ amount DZD => [Minus amount]
  | TransferUsdToDzd _ _ _ _ dzd => [Plus dzd]
  | _ => []
  end.

(** What each transaction contributes to the totals of its month. *)
Definition earned_terms (t : Transaction) : list term :=
  match t with
  | Income _ _ _ _ _ net _ => [Plus net]
  | _ => []
  end.

Definition spent_usd_terms (t : Transaction) : list term :=
  match t with
  | Expense _ _ _ amount USD => [Plus amount]
  | _ => []
  end.

Definition spent_dzd_terms (t : Transaction) : list term :=
  match t with
  | Expense _ _ _ amount DZD => [Plus amount]
  | _ => []
  end.

(** The date lies in calendar month [m] of year [y]. *)
Definition in_month (y m : Z) (d : date) : bool :=
  (year d =? y)%Z && (month d =? m)%Z.

Definition of_month (y m : Z) (ts : list Transaction) : list Transaction :=
  List.filter (fun t => in_month y m (txn_date t)) ts.

(** The month test of the loop, on the stored date string. *)
Definition dated (key : string) (t : Transaction) : bool :=
  String.prefix key (strftime_Ymd (txn_date t)).

Definition month_terms (hit : bool) (l : list term) : list term :=
  if hit then l else [].

End Model.

(** A date [datetime.now()] can give, with a year of four digits. *)
Definition valid_date (d : date) : Prop :=
  (1000 <= year d <= 9999)%Z /\ (1 <= month d <= 12)%Z
  /\ (1 <= day d <= 31)%Z.

(** No character of the string is a minus sign. *)
Fixpoint no_dash (s : string) : Prop :=
  match s with
  | EmptyString => True
  | String c s' => c <> "-"%char /\ no_dash s'
  end.

(** ** Sample states

    The empty ledger the program starts from, with the default display rate
    and March 2024 selected, in both arithmetics. *)

Definition float_app0 : @app float :=
  {| transactions := []; display_rate := 200%float;
     selected_year := 2024; selected_month := 3 |}.

Definition some_day : date := {| year := 2024; month := 3; day := 31 |}.

(** Three incomes of 0.1, 0.2 and 0.3 dollars added with no fee to the bank
    account, and the same three added in the opposite order. *)
Definition add_bank_income (x : float) (uuid4 : string) (st : @app float)
  : @app float :=
  fst (add_income (Some x) None "No Fee" "job" "off" uuid4 some_day true st).

Definition float_app_123 : @app float :=
  add_bank_income 0x1.3333333333333p-2 "c"
    (add_bank_income 0x1.999999999999ap-3 "b"
       (add_bank_income 0x1.999999999999ap-4 "a" float_app0)).

Definition float_app_321 : @app float :=
  add_bank_income 0x1.999999999999ap-4 "a"
    (add_bank_income 0x1.999999999999ap-3 "b"
       (add_bank_income 0x1.3333333333333p-2 "c" float_app0)).

(** A ledger holding ten dollars in the PayPal account. *)
Definition float_app_paypal10 : @app float :=
  fst (add_income (Some 10%float) None "No Fee" "job" "on" "p" some_day true
         float_app0).

(** An entered number that is finite and not negative. *)
Definition finite_nonneg (x : float) : Prop :=
  (0 <=? x)%float = true /\ (x <? infinity)%float = true.

(** What an action must be given for its transaction to hold no negative
    amount: amounts and rate are finite and not negative, a fee typed by
    hand lies between zero and the gross amount, and a PayPal transfer
    covers its fee. *)
Definition nonneg_inputs (a : @action float) : Prop :=
  match a with
  | PressAddIncome (Some g) fee_val fee_type _ _ =>
      finite_nonneg g
      /\ match fee_val with
         | Some f =>
             contains "Manual" fee_type = true ->
             (0 <=? f)%float = true /\ (f <=? g)%float = true
         | None => True
         end
  | PressProcess (Some amt) method =>
      finite_nonneg amt
      /\ ((if contains "Manual" method then 5 else 0) <=? amt)%float = true
  | PressConfirmSale (Some usd) (Some rate) =>
      finite_nonneg usd /\ finite_nonneg rate
  | PressRecord (Some amt) _ _ _ => (0 <=? amt)%float = true
  | _ => True
  end.

(** ** Binary64 numbers that compare greater than or equal to zero *)

Definition SFnonneg (r : spec_float) : Prop :=
  match r with
  | S754_zero _ | S754_infinity false | S754_finite false _ _ => True
  | _ => False
  end.

(** The binary64 number nearest to one tenth. *)
Definition SFtenth : spec_float := S754_finite false 7205759403792794 (-56).

(** ** Amounts that add without rounding *)

(** The binary64 number [z / 2^q]. *)
Definition SFdyadic (q z : Z) : spec_float :=
  binary_normalize prec emax z (- q) false.

(** [x] is [z] units of [2^-q]. *)
Definition units (q : Z) (x : float) (z : Z) : Prop :=
  Prim2SF x = SFdyadic q z.

(** What a term adds to a sum, in units of [2^-q]. *)
Definition term_units (q : Z) (tm : @term float) (z : Z) : Prop :=
  match tm with
  | Plus x => units q x z
  | Minus x => units q x (- z)
  end.

Definition sum_abs (zs : list Z) : Z :=
  fold_right (fun z acc => Z.abs z + acc)%Z 0%Z zs.

(** The amounts are whole numbers of units of [2^-q], with [q] between 0
    and 1022, and their magnitudes add up to less than [2^53] units. *)
Definition exact_amounts (q : Z) (l : list (@term float)) : Prop :=
  (0 <= q <= 1022)%Z
  /\ exists zs, Forall2 (term_units q) l zs /\ (sum_abs zs < 2 ^ 53)%Z.

(** Case analysis on the key of a lookup in a dictionary literal. *)
Ltac dict_cases H :=
  repeat (apply lookup_insert_Some in H;
          destruct H as [[_ H]|[_ H]];
          [ try discriminate H; try (injection H as <-; assumption) | ]);
  try (rewrite lookup_empty in H; discriminate H).

(** Incomes dated on the last day of March 2024, in February and in April. *)
Definition float_three_months : list (@Transaction float) :=
  [Income "a" {| year := 2024; month := 3; day := 31 |}
     "job" 10%float 0%float 10%float false;
   Income "b" {| year := 2024; month := 2; day := 28 |}
     "job" 20%float 0%float 20%float false;
   Income "c" {| year := 2024; month := 4; day := 1 |}
     "job" 40%float 0%float 40%float false].

(** Three incomes of a quarter, a half and three quarters of a dollar, and
    the same three in the opposite order. *)
Definition float_quarters : list (@Transaction float) :=
  [Income "a" some_day "job" 0.25%float 0%float 0.25%float false;
   Income "b" some_day "job" 0.5%float 0%float 0.5%float false;
   Income "c" some_day "job" 0.75%float 0%float 0.75%float false].

Definition float_quarters_reversed : list (@Transaction float) :=
  rev float_quarters.

(** The two scenarios of the specification, run through the actions. *)
Definition scenario_bank : @app float :=
  let st1 := fst (add_income (Some 1000%float) None "Upwork (10%)" "job"
                    "off" "i1" some_day true float_app0) in
  let st2 := fst (add_expense (Some 400%float) "USD (Online)" "Other" "rent"
                    "e1" some_day true st1) in
  fst (transfer_usd_to_dzd (Some 500%float) (Some 200%float)
         "t1" some_day true st2).

Definition scenario_paypal : @app float :=
  let st1 := fst (add_income (Some 200%float) None "No Fee" "job" "on"
                    "i1" some_day true float_app0) in
  fst (transfer_paypal_to_bank (Some 200%float) "Manual ($5 Fee)"
         "t1" some_day true st1).

(** * More of the program: month navigation, lists, history, connection string *)

Section Views.
Context {num : Type} {A : Arith num}.
Local Open Scope num_scope.

Definition set_selected (y m : Z) (st : @app num) : @app num :=
  {| transactions := transactions st;
     display_rate := display_rate st;
     selected_year := y;
     selected_month := m |}.

Definition set_display_rate (r : num) (st : @app num) : @app num :=
  {| transactions := transactions st;
     display_rate := r;
     selected_year := selected_year st;
     selected_month := selected_month st |}.

(** [change_month]: the two assignments; the redraw that follows reads the
    state and changes nothing in it. *)
Definition change_month (direction : Z) (st : @app num) : @app num :=
  if (direction =? 1)%Z then
    if (selected_month st =? 12)%Z
    then set_selected (selected_year st + 1)%Z 1 st
    else set_selected (selected_year st) (selected_month st + 1)%Z st
  else
    if (selected_month st =? 1)%Z
    then set_selected (selected_year st - 1)%Z 12 st
    else set_selected (selected_year st) (selected_month st - 1)%Z st.

(** The selected month counted in months. *)
Definition month_index (st : @app num) : Z :=
  (12 * selected_year st + (selected_month st - 1))%Z.

(** [f"{v:,.2f}"]: the number handed to the formatter; a string raises
    [ValueError] and [None] raises [TypeError].  The digits written are not
    modelled. *)
Definition format_2f (v : @value num) : result num :=
  match v with
  | VNum x => Ok x
  | VBool b => Ok (if b then num_one else num_zero)
  | VStr _ => Raise ValueError
  | VNone => Raise TypeError
  end.

(** [sub in v] *)
Definition in_str (sub : string) (v : @value num) : result bool :=
  match v with
  | VStr s => Ok (contains sub s)
  | _ => Raise TypeError
  end.

(** What [create_list_row_modern] writes on a row, before rendering: the
    main text, the date, and for an income the account and the net amount,
    for an expense the currency sign and the amount.  A transfer shows
    "Transfer" and "Processed"; any other kind shows empty texts. *)
Inductive row_text : Type :=
  | IncomeText (category date : @value num) (account : string) (net : num)
  | ExpenseText (category date : @value num) (sign : string) (amount : num)
  | TransferText (date : @value num)
  | BlankText.

Record row : Type := {
  row_txn : gmap string (@value num);
  row_text_of : row_text;
  delete_button : bool
}.

Definition create_list_row_modern (t : gmap string (@value num)) (simple : bool)
  : result row :=
  ty ← getitem t "type";
  text ← (if eq_str ty "income" then
            c ← getitem t "category";
            d ← getitem t "date";
            v ← getitem t "net_amount";
            n ← format_2f v;
            Ok (IncomeText c d
                  (if truthy (get t "to_paypal" VNone) then "PayPal"
                   else "Bank") n)
          else if eq_str ty "expense" then
            c ← getitem t "category";
            d ← getitem t "date";
            cur ← getitem t "currency";
            v ← getitem t "amount";
            n ← format_2f v;
            Ok (ExpenseText c d (if eq_str cur "USD" then "$" else "DZD") n)
          else
            b ← in_str "transfer" ty;
            if (b : bool) then d ← getitem t "date"; Ok (TransferText d)
            else Ok BlankText);
  Ok {| row_txn := t; row_text_of := text; delete_button := negb simple |}.

(** A loop [for t in l: if test(t): create_list_row_modern(frame, t)]. *)
Fixpoint rows_where (test : gmap string (@value num) -> result bool)
    (l : list (gmap string (@value num))) : result (list row) :=
  match l with
  | [] => Ok []
  | t :: l' =>
      b ← test t;
      if (b : bool) then
        r ← create_list_row_modern t false;
        rs ← rows_where test l';
        Ok (r :: rs)
      else rows_where test l'
  end.

(** [t['type'] == kind and t['date'].startswith(key)] *)
Definition kind_in_month (kind key : string) (t : gmap string (@value num))
  : result bool :=
  ty ← getitem t "type";
  if eq_str ty kind then d ← getitem t "date"; startswith d key
  else Ok false.

(** ['transfer' in t['type']] *)
Definition is_transfer (t : gmap string (@value num)) : result bool :=
  ty ← getitem t "type"; in_str "transfer" ty.

Definition update_income_list (st : @app num) : result (list row) :=
  rows_where (kind_in_month "income" (get_monthly_key st))
    (rev (transactions st)).

Definition update_expense_list (st : @app num) : result (list row) :=
  rows_where (kind_in_month "expense" (get_monthly_key st))
    (rev (transactions st)).

Definition update_transfer_list (st : @app num) : result (list row) :=
  rows_where is_transfer (rev (transactions st)).

(** [sorted(l, key=..., reverse=True)] on string keys: the largest key
    first, equal keys in their order in [l]. *)
Fixpoint insert_desc {X : Type} (k : string) (x : X) (l : list (string * X))
  : list (string * X) :=
  match l with
  | [] => [(k, x)]
  | (k', x') :: l' =>
      if String.ltb k' k then (k, x) :: (k', x') :: l'
      else (k', x') :: insert_desc k x l'
  end.

Definition sorted_desc {X : Type} (l : list (string * X)) : list (string * X) :=
  fold_left (fun acc p => insert_desc (fst p) (snd p) acc) l [].

(** Keys in descending order. *)
Definition desc {X : Type} (l : list (string * X)) : Prop :=
  StronglySorted (fun a b => String.leb (fst b) (fst a) = true) l.

(** A list comprehension [[f(x) for x in l]], stopped by the first error. *)
Fixpoint mapM {X Y : Type} (f : X -> result Y) (l : list X) : result (list Y) :=
  match l with
  | [] => Ok []
  | x :: l' => y ← f x; ys ← mapM f l'; Ok (y :: ys)
  end.

(** The keys as strings, when every one of them is a string. *)
Fixpoint string_keys {X : Type} (l : list (@value num * X))
  : option (list (string * X)) :=
  match l with
  | [] => Some []
  | (VStr s, x) :: l' =>
      match string_keys l' with
      | Some r => Some ((s, x) :: r)
      | None => None
      end
  | _ => None
  end.

(** [update_dashboard_history]: the sort keys [x['date']] are read first,
    for every transaction; the transactions are sorted on them, the newest
    first, and the first twenty become rows without a delete button.
    [None] stands for a ledger in which some date is not a string: what
    [sorted] does there depends on which keys it compares and is outside
    this model. *)
Definition update_dashboard_history (st : @app num)
  : option (result (list row)) :=
  match mapM (fun t => d ← getitem t "date"; Ok (d, t)) (transactions st) with
  | Raise e => Some (Raise e)
  | Ok keyed =>
      match string_keys keyed with
      | None => None
      | Some ks =>
          Some (mapM (fun p => create_list_row_modern (snd p) true)
                  (firstn 20 (sorted_desc ks)))
      end
  end.

End Views.

Section Connection.
(** Python's [str.strip], left uninterpreted: what follows holds whatever it
    removes. *)
Variable strip : string -> string.

(** The connection string [initialize_db_connection] saves for the typed
    one: the typed string is stripped, and "sslmode=require" is added when
    it is missing, after "&" when the string already has a "?" and after
    "?" otherwise. *)
Definition with_sslmode (typed : string) : string :=
  let db_url := strip typed in
  if contains "sslmode=require" db_url then db_url
  else if contains "?" db_url then db_url +:+ "&sslmode=require"
  else db_url +:+ "?sslmode=require".

(** The prompt of [initialize_db_connection]: a closed or empty prompt
    leaves the program ([None]); any other input is completed and saved. *)
Definition prompt_db_url (get_input : option string) : option string :=
  match get_input with
  | None | Some "" => None
  | Some typed => Some (with_sslmode typed)
  end.
End Connection.

Section ViewsModel.
Context {num : Type} {A : Arith num}.

(** The row [create_list_row_modern] builds for a transaction of the data
    model. *)
Definition row_of (simple : bool) (t : @Transaction num) : @row num :=
  {| row_txn := encode t;
     row_text_of :=
       match t with
       | Income _ on source _ _ net to_paypal =>
           IncomeText (VStr source) (VStr (strftime_Ymd on))
             (if to_paypal then "PayPal" else "Bank") net
       | Expense _ on label amount cur =>
           ExpenseText (VStr label) (VStr (strftime_Ymd on))
             (match cur with USD => "$" | DZD => "DZD" end) amount
       | TransferUsdToDzd _ on _ _ _ | TransferPaypalToBank _ on _ _ _ =>
           TransferText (VStr (strftime_Ymd on))
       end;
     delete_button := negb simple |}.

(** The amount a row of the income list shows, and the amount a row of the
    expense list shows under a given currency sign. *)
Definition income_row_terms (r : @row num) : list (@term num) :=
  match row_text_of r with
  | IncomeText _ _ _ n => [Plus n]
  | _ => []
  end.

Definition expense_row_terms (sign : string) (r : @row num)
  : list (@term num) :=
  match row_text_of r with
  | ExpenseText _ _ sg a => if String.eqb sg sign then [Plus a] else []
  | _ => []
  end.

Definition is_income (t : @Transaction num) : bool :=
  match t with Income _ _ _ _ _ _ _ => true | _ => false end.

Definition is_expense (t : @Transaction num) : bool :=
  match t with Expense _ _ _ _ _ => true | _ => false end.

Definition is_transfer_kind (t : @Transaction num) : bool :=
  match t with
  | TransferUsdToDzd _ _ _ _ _ | TransferPaypalToBank _ _ _ _ _ => true
  | _ => false
  end.

(** The date string stored for a transaction. *)
Definition date_string (t : @Transaction num) : string :=
  strftime_Ymd (txn_date t).

(** Newest first: every element is dated no earlier than those after it. *)
Definition newest_first (l : list (@Transaction num)) : Prop :=
  StronglySorted
    (fun a b => String.leb (date_string b) (date_string a) = true) l.

End ViewsModel.

(** ** Balances under the funds checks *)

(** No balance compares below zero. *)
Definition balances_nonneg (s : @stats float) : Prop :=
  (0 <=? usd_savings s)%float = true
  /\ (0 <=? paypal_balance s)%float = true
  /\ (0 <=? dzd_cash s)%float = true.

(** Inputs that store no negative amount, with a finite expense. *)
Definition careful_inputs (a : @action float) : Prop :=
  nonneg_inputs a
  /\ match a with
     | PressRecord (Some amt) _ _ _ => (amt <? infinity)%float = true
     | _ => True
     end.

(** ** More sample states *)

(** December 2024 selected on the empty ledger. *)
Definition float_app_december : @app float :=
  {| transactions := []; display_rate := 200%float;
     selected_year := 2024; selected_month := 12 |}.

(** A ledger holding a thousand dollars in the bank account. *)
Definition float_app_bank1000 : @app float :=
  fst (add_income (Some 1000%float) None "No Fee" "job" "off" "b" some_day
         true float_app0).

(** A note without amounts, of a kind the program never writes. *)
Definition note_dict : gmap string (@value float) :=
  <["type" := VStr "note"]> (<["date" := VStr "2024-03-01"]> ∅).

(** Two expenses of March 2024, one in each currency, and one of April. *)
Definition float_expenses : list (@Transaction float) :=
  [Expense "x" {| year := 2024; month := 3; day := 2 |} "Food - bread"
     30%float USD;
   Expense "y" {| year := 2024; month := 3; day := 9 |} "Food - dates"
     1500%float DZD;
   Expense "z" {| year := 2024; month := 4; day := 1 |} "Other - rent"
     400%float USD].
(** * Facts about strings and decimal numerals *)

Lemma append_cons c (a s : string) : String c a +:+ s = String c (a +:+ s).
Proof. reflexivity. Qed.

Lemma append_nil_r (a : string) : a +:+ "" = a.
Proof. induction a as [|c a IH]; [reflexivity|]. by rewrite append_cons, IH. Qed.

Lemma prefix_cons a s b t :
  String.prefix (String a s) (String b t)
  = if Ascii.ascii_dec a b then String.prefix s t else false.
Proof. reflexivity. Qed.

Lemma prefix_nil s : String.prefix "" s = true.
Proof. destruct s; reflexivity. Qed.

Lemma prefix_app_same a s t :
  String.prefix (a +:+ s) (a +:+ t) = String.prefix s t.
Proof.
  induction a as [|c a IH]; [reflexivity|].
  rewrite !append_cons, prefix_cons.
  destruct (Ascii.ascii_dec c c); [exact IH|congruence].
Qed.

Lemma prefix_app_l a t : String.prefix a (a +:+ t) = true.
Proof.
  rewrite <- (append_nil_r a) at 1. rewrite prefix_app_same. apply prefix_nil.
Qed.

(** Two numerals followed by a minus sign: if one line starts with the
    other, the numerals are the same. *)
Lemma prefix_dash_split a : forall a' r r',
  no_dash a -> no_dash a' ->
  String.prefix (a +:+ String "-" r) (a' +:+ String "-" r') = true ->
  a = a'.
Proof.
  induction a as [|c a IH]; intros [|c' a'] r r' Ha Ha';
    rewrite ?append_cons; change ("" +:+ String "-" r) with (String "-" r);
    change ("" +:+ String "-" r') with (String "-" r');
    rewrite ?prefix_cons; try reflexivity.
  - destruct Ha' as [Hc _]. destruct (Ascii.ascii_dec "-" c'); congruence.
  - destruct Ha as [Hc _]. destruct (Ascii.ascii_dec c "-"); congruence.
  - destruct Ha as [_ Ha], Ha' as [_ Ha'].
    destruct (Ascii.ascii_dec c c'); [|discriminate].
    intros H. subst c'. f_equal. eauto.
Qed.

(** The digits [pretty_N_go] puts before its accumulator. *)
Lemma pretty_N_go_digits x : forall s,
  exists pre, pretty_N_go x s = pre +:+ s /\ no_dash pre
              /\ ((0 < x)%N -> pre <> "").
Proof.
  induction (N.lt_wf_0 x) as [x _ IH]; intros s.
  assert (x = 0 ∨ 0 < x)%N as [->|Hx] by lia.
  - exists "". rewrite pretty_N_go_0. repeat split. lia.
  - rewrite pretty_N_go_step by done.
    destruct (IH (x `div` 10)%N (N.div_lt x 10 Hx eq_refl)
                (String (pretty_N_char (x `mod` 10)) s))
      as (pre & -> & Hpre & _).
    exists (pre +:+ String (pretty_N_char (x `mod` 10)) "").
    split; [|split].
    + clear. induction pre as [|c pre IH]; [reflexivity|].
      by rewrite !append_cons, IH.
    + clear -Hpre. induction pre as [|c pre IH].
      * split; [|done]. unfold pretty_N_char. by repeat case_match.
      * rewrite append_cons. destruct Hpre. split; auto.
    + intros _. by destruct pre.
Qed.

Lemma pretty_pos_digits (p : positive) :
  no_dash (pretty (Z.pos p)) /\ pretty (Z.pos p) <> "".
Proof.
  change (pretty (Z.pos p)) with (pretty_N_go (N.pos p) "").
  destruct (pretty_N_go_digits (N.pos p) "") as (pre & -> & Hpre & Hne).
  rewrite append_nil_r.
  split; [done|]. apply Hne. lia.
Qed.

Lemma pretty_nonneg_no_dash (y : Z) : (0 <= y)%Z -> no_dash (pretty y).
Proof.
  destruct y as [|p|p]; intros H; [by vm_compute| |lia].
  apply pretty_pos_digits.
Qed.

Lemma format_02d_month m :
  (1 <= m <= 12)%Z ->
  exists a b, format_02d m = String a (String b "").
Proof.
  intros H.
  assert (m = 1 ∨ m = 2 ∨ m = 3 ∨ m = 4 ∨ m = 5 ∨ m = 6 ∨ m = 7 ∨ m = 8
          ∨ m = 9 ∨ m = 10 ∨ m = 11 ∨ m = 12)%Z as Hm by lia.
  repeat (destruct Hm as [->|Hm]); try subst m; vm_compute; eauto.
Qed.

Lemma format_02d_inj m m' :
  (1 <= m <= 12)%Z -> (1 <= m' <= 12)%Z ->
  format_02d m = format_02d m' -> m = m'.
Proof.
  intros H H'.
  assert (m = 1 ∨ m = 2 ∨ m = 3 ∨ m = 4 ∨ m = 5 ∨ m = 6 ∨ m = 7 ∨ m = 8
          ∨ m = 9 ∨ m = 10 ∨ m = 11 ∨ m = 12)%Z as Hm by lia.
  assert (m' = 1 ∨ m' = 2 ∨ m' = 3 ∨ m' = 4 ∨ m' = 5 ∨ m' = 6 ∨ m' = 7
          ∨ m' = 8 ∨ m' = 9 ∨ m' = 10 ∨ m' = 11 ∨ m' = 12)%Z as Hm' by lia.
  repeat (destruct Hm as [->|Hm]); try subst m;
    repeat (destruct Hm' as [->|Hm']); try subst m';
    vm_compute; congruence.
Qed.

Lemma prefix_month M m rest :
  (1 <= M <= 12)%Z -> (1 <= m <= 12)%Z ->
  String.prefix (format_02d M) (format_02d m +:+ rest) = true -> M = m.
Proof.
  intros HM Hm.
  destruct (format_02d_month M HM) as (a & b & EM).
  destruct (format_02d_month m Hm) as (a' & b' & Em).
  intros H. apply format_02d_inj; [done..|].
  rewrite EM, Em in *. rewrite !append_cons, !prefix_cons in H.
  destruct (Ascii.ascii_dec a a'); [|discriminate].
  destruct (Ascii.ascii_dec b b'); [|discriminate].
  congruence.
Qed.

(** On the date strings [strftime] writes, the prefix test against the
    month key is the comparison of year and month. *)
Lemma startswith_key_in_month (Y M : Z) (d : date) :
  valid_date d -> (1 <= M <= 12)%Z ->
  String.prefix (pretty Y +:+ "-" +:+ format_02d M) (strftime_Ymd d)
  = in_month Y M d.
Proof.
  destruct d as [y m dd]. unfold valid_date, strftime_Ymd, in_month.
  cbn [year month day]. intros (Hy & Hm & _) HM.
  destruct (Z.eqb_spec y Y) as [->|Hne].
  - rewrite prefix_app_same. change ("-" +:+ ?s) with (String "-" s).
    rewrite prefix_cons. destruct (Ascii.ascii_dec "-" "-"); [|done].
    cbn [andb]. destruct (Z.eqb_spec m M) as [->|Hne].
    + apply prefix_app_l.
    + destruct (String.prefix _ _) eqn:E; [|done].
      apply prefix_month in E; [congruence|done..].
  - cbn [andb]. destruct (String.prefix _ _) eqn:E; [|done]. exfalso.
    destruct Y as [|pY|pY].
    + apply prefix_dash_split in E.
      * apply (inj pretty) in E. congruence.
      * by vm_compute.
      * apply pretty_nonneg_no_dash. lia.
    + apply prefix_dash_split in E.
      * apply (inj pretty) in E. congruence.
      * apply pretty_nonneg_no_dash. lia.
      * apply pretty_nonneg_no_dash. lia.
    + destruct y as [|py|py]; [lia| |lia].
      destruct (pretty_pos_digits py) as [Hnd Hne'].
      destruct (pretty (Z.pos py)) as [|c s]; [done|].
      change (pretty (Z.neg pY)) with ("-" +:+ pretty pY) in E.
      change ("-" +:+ ?s) with (String "-" s) in E.
      rewrite !append_cons, prefix_cons in E. destruct Hnd as [Hc _].
      destruct (Ascii.ascii_dec "-" c); congruence.
Qed.

(** * Facts about lists *)

Lemma app_self_singleton {X : Type} (l : list X) (t : X) :
  l = l ++ [t] -> False.
Proof.
  intros H. apply (f_equal length) in H. rewrite length_app in H.
  cbn in H. lia.
Qed.

Lemma app_singleton_inv {X : Type} (l : list X) (t t' : X) :
  l ++ [t] = l ++ [t'] -> t = t'.
Proof. intros H. apply app_inv_head in H. congruence. Qed.

Lemma filter_perm {X : Type} (p : X -> bool) (l l' : list X) :
  Permutation l l' -> Permutation (List.filter p l) (List.filter p l').
Proof.
  induction 1 as [|a l l' _ IH|a b l|l l' l'' _ IH1 _ IH2]; cbn [List.filter].
  - constructor.
  - destruct (p a); [by constructor|done].
  - destruct (p a), (p b); try reflexivity. apply perm_swap.
  - by etrans.
Qed.

(** * The loop of calculate_stats on the dictionaries of the data model *)

Section Loop.
Context {num : Type} {A : Arith num}.
Local Open Scope num_scope.

Lemma balance_update_income s id d c g f n b :
  balance_update s (income_dict id d c g f n b)
  = Ok (if b then set_paypal_balance (paypal_balance s + n) s
        else set_usd_savings (usd_savings s + n) s).
Proof. destruct b; reflexivity. Qed.

Lemma balance_update_expense s id d c a cur :
  balance_update s (expense_dict id d c a (currency_code cur))
  = Ok (match cur with
        | USD => set_usd_savings (usd_savings s - a) s
        | DZD => set_dzd_cash (dzd_cash s - a) s
        end).
Proof. destruct cur; reflexivity. Qed.

Lemma balance_update_usd_dzd s id d u r z :
  balance_update s (transfer_usd_dzd_dict id d u r z)
  = Ok (set_dzd_cash (dzd_cash s + z) (set_usd_savings (usd_savings s - u) s)).
Proof. reflexivity. Qed.

Lemma balance_update_paypal_bank s id d a f r :
  balance_update s (transfer_paypal_bank_dict id d a f r)
  = Ok (set_usd_savings (usd_savings s + r)
          (set_paypal_balance (paypal_balance s - a) s)).
Proof. reflexivity. Qed.

Lemma month_update_income key s id d c g f n b :
  month_update key s (income_dict id d c g f n b)
  = Ok (if String.prefix key d
        then set_month_earned (month_earned s + n) s else s).
Proof.
  unfold month_update.
  change (getitem (income_dict id d c g f n b) "date") with (Ok (@VStr num d)).
  cbn [mbind result_bind startswith].
  destruct (String.prefix key d); reflexivity.
Qed.

Lemma month_update_expense key s id d c a cur :
  month_update key s (expense_dict id d c a (currency_code cur))
  = Ok (if String.prefix key d
        then match cur with
             | USD => set_month_spent_usd (month_spent_usd s + a) s
             | DZD => set_month_spent_dzd (month_spent_dzd s + a) s
             end
        else s).
Proof.
  unfold month_update.
  change (getitem (expense_dict id d c a (currency_code cur)) "date")
    with (Ok (@VStr num d)).
  cbn [mbind result_bind startswith].
  destruct (String.prefix key d), cur; reflexivity.
Qed.

Lemma month_update_usd_dzd key s id d u r z :
  month_update key s (transfer_usd_dzd_dict id d u r z) = Ok s.
Proof.
  unfold month_update.
  change (getitem (transfer_usd_dzd_dict id d u r z) "date")
    with (Ok (@VStr num d)).
  cbn [mbind result_bind startswith].
  destruct (String.prefix key d); reflexivity.
Qed.

Lemma month_update_paypal_bank key s id d a f r :
  month_update key s (transfer_paypal_bank_dict id d a f r) = Ok s.
Proof.
  unfold month_update.
  change (getitem (transfer_paypal_bank_dict id d a f r) "date")
    with (Ok (@VStr num d)).
  cbn [mbind result_bind startswith].
  destruct (String.prefix key d); reflexivity.
Qed.

Lemma loop_body_encode key s (t : @Transaction num) :
  exists s2,
    (s1 ← balance_update s (encode t); month_update key s1 (encode t)) = Ok s2
    /\ usd_savings s2 = fold_left apply_term (bank_terms t) (usd_savings s)
    /\ paypal_balance s2 = fold_left apply_term (paypal_terms t) (paypal_balance s)
    /\ dzd_cash s2 = fold_left apply_term (cash_terms t) (dzd_cash s)
    /\ month_earned s2
       = fold_left apply_term (month_terms (dated key t) (earned_terms t)) (month_earned s)
    /\ month_spent_usd s2
       = fold_left apply_term (month_terms (dated key t) (spent_usd_terms t)) (month_spent_usd s)
    /\ month_spent_dzd s2
       = fold_left apply_term (month_terms (dated key t) (spent_dzd_terms t)) (month_spent_dzd s).
Proof.
  unfold dated.
  destruct t as [id on src g f n b|id on lbl a cur|id on u r z|id on a f r];
    cbn [encode txn_date].
  - rewrite balance_update_income. cbn [mbind result_bind].
    rewrite month_update_income. eexists; split; [reflexivity|].
    destruct b, (String.prefix key (strftime_Ymd on)); repeat split.
  - rewrite balance_update_expense. cbn [mbind result_bind].
    rewrite month_update_expense. eexists; split; [reflexivity|].
    destruct cur, (String.prefix key (strftime_Ymd on)); repeat split.
  - rewrite balance_update_usd_dzd. cbn [mbind result_bind].
    rewrite month_update_usd_dzd. eexists; split; [reflexivity|].
    destruct (String.prefix key (strftime_Ymd on)); repeat split.
  - rewrite balance_update_paypal_bank. cbn [mbind result_bind].
    rewrite month_update_paypal_bank. eexists; split; [reflexivity|].
    destruct (String.prefix key (strftime_Ymd on)); repeat split.
Qed.

Lemma stats_loop_encode key (ts : list (@Transaction num)) : forall s,
  exists s',
    stats_loop key s (map encode ts) = Ok s'
    /\ usd_savings s' = fold_left apply_term (flat_map bank_terms ts) (usd_savings s)
    /\ paypal_balance s' = fold_left apply_term (flat_map paypal_terms ts) (paypal_balance s)
    /\ dzd_cash s' = fold_left apply_term (flat_map cash_terms ts) (dzd_cash s)
    /\ month_earned s'
       = fold_left apply_term (flat_map earned_terms (List.filter (dated key) ts)) (month_earned s)
    /\ month_spent_usd s'
       = fold_left apply_term (flat_map spent_usd_terms (List.filter (dated key) ts)) (month_spent_usd s)
    /\ month_spent_dzd s'
       = fold_left apply_term (flat_map spent_dzd_terms (List.filter (dated key) ts)) (month_spent_dzd s).
Proof.
  induction ts as [|t ts IH]; intros s.
  - exists s. repeat split.
  - destruct (loop_body_encode key s t) as (s2 & Hb & H1 & H2 & H3 & H4 & H5 & H6).
    destruct (IH s2) as (s' & Hl & G1 & G2 & G3 & G4 & G5 & G6).
    exists s'. split.
    + cbn [map stats_loop].
      destruct (balance_update s (encode t)) as [s1|e]; [|discriminate].
      cbn [mbind result_bind] in Hb |- *. rewrite Hb. exact Hl.
    + cbn [flat_map List.filter]. rewrite !fold_left_app.
      rewrite <- H1, <- H2, <- H3.
      unfold month_terms in *.
      destruct (dated key t); cbn [flat_map]; rewrite ?fold_left_app;
        cbn [fold_left] in *; rewrite <- ?H4, <- ?H5, <- ?H6;
        rewrite <- ?H4, <- ?H5, <- ?H6 in *; repeat split; congruence.
Qed.
End Loop.

(** * Balances, monthly totals, construction, append and delete *)

Section Engine.
Context {num : Type} {A : Arith num}.
Local Open Scope num_scope.

(** C1.  On every sequence of transactions [calculate_stats] returns, and
    each of the three balances is the sum, taken in ledger order from zero,
    of the signed amounts the transactions contribute to that account:
    the bank receives the net amount of an income not routed to PayPal and
    the amount received from a PayPal transfer, and gives the amount of a
    USD expense and the dollars of a sale; PayPal receives the net amount
    of an income routed to it and gives the amount sent; cash gives the
    amount of a DZD expense and receives the dinars of a sale. *)
Theorem calculate_stats_balances (st : app) (ts : list (@Transaction num)) :
  exists s,
    calculate_stats (set_transactions (map encode ts) st) = Ok s
    /\ usd_savings s = signed_sum (flat_map bank_terms ts)
    /\ paypal_balance s = signed_sum (flat_map paypal_terms ts)
    /\ dzd_cash s = signed_sum (flat_map cash_terms ts).
Proof.
  destruct (stats_loop_encode (get_monthly_key st) ts stats0)
    as (s & Hs & H1 & H2 & H3 & _).
  exists s. split; [exact Hs|]. unfold signed_sum. auto.
Qed.

Lemma filter_dated_of_month (Y M : Z) (ts : list (@Transaction num)) :
  Forall (fun t => valid_date (txn_date t)) ts ->
  (1 <= M <= 12)%Z ->
  List.filter (dated (pretty Y +:+ "-" +:+ format_02d M)) ts = of_month Y M ts.
Proof.
  intros Hts HM. unfold of_month.
  induction Hts as [|t ts Ht _ IH]; [reflexivity|].
  cbn [List.filter]. unfold dated at 1.
  rewrite (startswith_key_in_month Y M _ Ht HM), IH. reflexivity.
Qed.

(** C4.  For every ledger whose dates are calendar dates with a year of
    four digits, and every selected month, the three monthly totals are the
    sums over the transactions dated in that calendar month: net amounts of
    incomes, amounts of USD expenses, amounts of DZD expenses; transfers
    add nothing.  With March 2024 selected, an income dated 2024-03-31 is
    counted and incomes dated 2024-02-28 and 2024-04-01 are not. *)
Theorem month_totals_by_calendar_month :
  (forall (st : app) (ts : list (@Transaction num)),
     Forall (fun t => valid_date (txn_date t)) ts ->
     (1 <= selected_month st <= 12)%Z ->
     exists s,
       calculate_stats (set_transactions (map encode ts) st) = Ok s
       /\ month_earned s
          = signed_sum (flat_map earned_terms
                          (of_month (selected_year st) (selected_month st) ts))
       /\ month_spent_usd s
          = signed_sum (flat_map spent_usd_terms
                          (of_month (selected_year st) (selected_month st) ts))
       /\ month_spent_dzd s
          = signed_sum (flat_map spent_dzd_terms
                          (of_month (selected_year st) (selected_month st) ts)))
  /\ (forall (rate x y z : num),
        exists s,
          calculate_stats
            {| transactions :=
                 map encode
                   [Income "a" {| year := 2024; month := 3; day := 31 |}
                      "job" x num_zero x false;
                    Income "b" {| year := 2024; month := 2; day := 28 |}
                      "job" y num_zero y false;
                    Income "c" {| year := 2024; month := 4; day := 1 |}
                      "job" z num_zero z false];
               display_rate := rate;
               selected_year := 2024;
               selected_month := 3 |} = Ok s
          /\ month_earned s = num_zero + x).
Proof.
  assert (forall (st : app) (ts : list (@Transaction num)),
     Forall (fun t => valid_date (txn_date t)) ts ->
     (1 <= selected_month st <= 12)%Z ->
     exists s,
       calculate_stats (set_transactions (map encode ts) st) = Ok s
       /\ month_earned s
          = signed_sum (flat_map earned_terms
                          (of_month (selected_year st) (selected_month st) ts))
       /\ month_spent_usd s
          = signed_sum (flat_map spent_usd_terms
                          (of_month (selected_year st) (selected_month st) ts))
       /\ month_spent_dzd s
          = signed_sum (flat_map spent_dzd_terms
                          (of_month (selected_year st) (selected_month st) ts)))
    as General.
  { intros st ts Hts HM.
    destruct (stats_loop_encode (get_monthly_key st) ts stats0)
      as (s & Hs & _ & _ & _ & H4 & H5 & H6).
    exists s. split; [exact Hs|]. unfold signed_sum.
    unfold get_monthly_key in H4, H5, H6.
    rewrite (filter_dated_of_month _ _ ts Hts HM) in H4, H5, H6. auto. }
  split; [exact General|].
  intros rate x y z.
  destruct (General
              {| transactions := []; display_rate := rate;
                 selected_year := 2024; selected_month := 3 |}
              [Income "a" {| year := 2024; month := 3; day := 31 |}
                 "job" x num_zero x false;
               Income "b" {| year := 2024; month := 2; day := 28 |}
                 "job" y num_zero y false;
               Income "c" {| year := 2024; month := 4; day := 1 |}
                 "job" z num_zero z false])
    as (s & Hs & He & _).
  - repeat constructor; cbn; lia.
  - cbn. lia.
  - exists s. split; [exact Hs|exact He].
Qed.

(** C6.  The income [add_income] appends for the gross amount [g] stores
    [g] under "amount", stores under "fee_amount" the fee 0 with "No Fee",
    [g * 0.1] with "Upwork (10%)" and the entered fee with "Transaction Fee
    (Manual)", and stores under "net_amount" the difference [g - fee] of
    the two stored numbers.  Whatever the form holds, either nothing is
    appended or the appended income stores a fee chosen by this rule and
    the net amount [g - fee]. *)
Theorem add_income_fee_and_net (name chk uuid4 : string)
    (now : date) (saved : bool) (st : @app num) :
  let added amount fee_val fee_type :=
    transactions (fst (add_income amount fee_val fee_type name chk
                         uuid4 now saved st)) in
  let stores (l : list (gmap string value)) (g fee : num) :=
    exists t,
      l = transactions st ++ [t]
      /\ t !! "type" = Some (VStr "income")
      /\ t !! "amount" = Some (VNum g)
      /\ t !! "fee_amount" = Some (VNum fee)
      /\ t !! "net_amount" = Some (VNum (g - fee)) in
  (forall g fee_val, stores (added (Some g) fee_val "No Fee") g num_zero)
  /\ (forall g fee_val,
        stores (added (Some g) fee_val "Upwork (10%)") g (g * num_tenth))
  /\ (forall g f,
        stores (added (Some g) (Some f) "Transaction Fee (Manual)") g f)
  /\ (forall amount fee_val fee_type,
        added amount fee_val fee_type = transactions st
        \/ exists g fee,
             amount = Some g
             /\ stores (added amount fee_val fee_type) g fee
             /\ (if contains "Manual" fee_type then fee_val = Some fee
                 else fee = if contains "Upwork" fee_type
                            then g * num_tenth else num_zero)).
Proof.
  cbv zeta.
  assert (forall g fee,
            exists t : gmap string value,
              transactions st
              ++ [income_dict uuid4 (strftime_Ymd now) name g fee (g - fee)
                    (String.eqb chk "on")]
              = transactions st ++ [t]
              /\ t !! "type" = Some (VStr "income")
              /\ t !! "amount" = Some (VNum g)
              /\ t !! "fee_amount" = Some (VNum fee)
              /\ t !! "net_amount" = Some (VNum (g - fee))) as Stored.
  { intros g fee. eexists. split; [reflexivity|]. repeat split. }
  split; [|split; [|split]].
  - intros g fee_val. apply Stored.
  - intros g fee_val. apply Stored.
  - intros g f. apply Stored.
  - intros [g|] fee_val fee_type; [|left; reflexivity].
    unfold add_income. cbn [float_entry mbind result_bind].
    destruct (contains "Manual" fee_type).
    + destruct fee_val as [f|]; [|left; reflexivity].
      right. exists g, f. split; [reflexivity|]. split; [|reflexivity].
      apply Stored.
    + right. eexists g, _. split; [reflexivity|]. split; [|reflexivity].
      apply Stored.
Qed.

(** C8, as the code has it.  When the database block fails,
    [add_transaction_to_db] returns [False] and the list in memory still
    holds the transaction: the append made before the [try] is not undone. *)
Theorem add_transaction_to_db_keeps_unsaved (t : gmap string (@value num))
    (st : app) :
  add_transaction_to_db t false st
  = (set_transactions (transactions st ++ [t]) st, false).
Proof. reflexivity. Qed.

Lemma id_differs_false (tid : string) (t : gmap string (@value num)) :
  id_differs tid t = false <-> t !! "id" = Some (VStr tid).
Proof.
  unfold id_differs, get, eq_str.
  destruct (t !! "id") as [[s|x|b|]|]; cbn; split; try congruence.
  - intros H. apply negb_false_iff, String.eqb_eq in H. by subst.
  - intros [= ->]. by rewrite String.eqb_refl.
Qed.

Lemma filter_id_differs_all (tid : string)
    (l : list (gmap string (@value num))) :
  Forall (fun t => t !! "id" <> Some (VStr tid)) l ->
  List.filter (id_differs tid) l = l.
Proof.
  induction 1 as [|t l Ht _ IH]; [reflexivity|].
  cbn [List.filter]. destruct (id_differs tid t) eqn:E.
  - by rewrite IH.
  - apply id_differs_false in E. contradiction.
Qed.

(** C9.  For every ledger and every transaction whose id no transaction of
    the ledger carries, appending it and then deleting by its id gives back
    the ledger, and with it the balances and totals computed before. *)
Theorem append_then_delete_restores (st : app) (t : gmap string (@value num))
    (tid : string) (saved : bool) :
  t !! "id" = Some (VStr tid) ->
  Forall (fun t' => t' !! "id" <> Some (VStr tid)) (transactions st) ->
  let st1 := fst (add_transaction_to_db t saved st) in
  let st2 := delete_transaction tid true st1 in
  transactions st2 = transactions st
  /\ calculate_stats st2 = calculate_stats st.
Proof.
  intros Hid Hfresh st1 st2.
  assert (transactions st2 = transactions st) as Hl.
  { subst st1 st2. cbn [add_transaction_to_db fst delete_transaction
                         set_transactions transactions].
    rewrite List.filter_app, (filter_id_differs_all _ _ Hfresh).
    cbn [List.filter]. apply id_differs_false in Hid. rewrite Hid.
    apply app_nil_r. }
  split; [exact Hl|].
  unfold calculate_stats. rewrite Hl. reflexivity.
Qed.

(** C10.  A confirmed delete keeps exactly the transactions whose id is not
    the given one, in their order; when no transaction carries the id, the
    ledger and everything computed from it are unchanged. *)
Theorem delete_transaction_removes_exactly (tid : string) (st : @app num) :
  let st' := delete_transaction tid true st in
  (forall t, In t (transactions st')
             <-> In t (transactions st) /\ t !! "id" <> Some (VStr tid))
  /\ sublist (transactions st') (transactions st)
  /\ (Forall (fun t => t !! "id" <> Some (VStr tid)) (transactions st) ->
      transactions st' = transactions st
      /\ calculate_stats st' = calculate_stats st).
Proof.
  cbn [delete_transaction set_transactions transactions].
  split; [|split].
  - intros t. rewrite List.filter_In. split.
    + intros [Hin Hd]. split; [exact Hin|]. intros E.
      apply id_differs_false in E. congruence.
    + intros [Hin Hne]. split; [exact Hin|].
      destruct (id_differs tid t) eqn:E; [done|].
      apply id_differs_false in E. contradiction.
  - induction (transactions st) as [|t l IH]; [constructor|].
    cbn [List.filter]. destruct (id_differs tid t); by constructor.
  - intros Hall. split; [by apply filter_id_differs_all|].
    unfold calculate_stats.
    cbn [transactions get_monthly_key selected_year selected_month].
    by rewrite filter_id_differs_all.
Qed.

End Engine.

(** * The numbers held by the dictionaries the actions build *)

Section Fields.
Context {num : Type} (P : num -> Prop).

Lemma income_dict_fields id d c (g f n : num) b k x :
  P g -> P f -> P n ->
  income_dict id d c g f n b !! k = Some (VNum x) -> P x.
Proof.
  intros Hg Hf Hn H. unfold income_dict in H.
  cbn [list_to_map foldr fst snd] in H. dict_cases H.
Qed.

Lemma expense_dict_fields id d c (a : num) cur k x :
  P a -> expense_dict id d c a cur !! k = Some (VNum x) -> P x.
Proof.
  intros Ha H. unfold expense_dict in H.
  cbn [list_to_map foldr fst snd] in H. dict_cases H.
Qed.

Lemma transfer_usd_dzd_dict_fields id d (u r z : num) k x :
  P u -> P r -> P z ->
  transfer_usd_dzd_dict id d u r z !! k = Some (VNum x) -> P x.
Proof.
  intros Hu Hr Hz H. unfold transfer_usd_dzd_dict in H.
  cbn [list_to_map foldr fst snd] in H. dict_cases H.
Qed.

Lemma transfer_paypal_bank_dict_fields id d (a f r : num) k x :
  P a -> P f -> P r ->
  transfer_paypal_bank_dict id d a f r !! k = Some (VNum x) -> P x.
Proof.
  intros Ha Hf Hr H. unfold transfer_paypal_bank_dict in H.
  cbn [list_to_map foldr fst snd] in H. dict_cases H.
Qed.
End Fields.

(** * Rounding in binary64: signs and order

    Facts about the specification of binary64 arithmetic that the funds
    checks and the stored amounts rely on. *)

Section Rounding.
Local Open Scope Z_scope.

Lemma SFnonneg_leb (r : spec_float) :
  SFnonneg r <-> SFleb (S754_zero false) r = true.
Proof. destruct r as [[|]|[|]| |[|] m e]; cbn; intuition discriminate. Qed.

Lemma shr_1_nonneg (r : shr_record) : 0 <= shr_m r -> 0 <= shr_m (shr_1 r).
Proof.
  destruct r as [[|[p|p|]|p] b s]; cbn; intros H; lia.
Qed.

Lemma iter_pos_invariant {X : Type} (P : X -> Prop) (f : X -> X) :
  (forall x, P x -> P (f x)) ->
  forall n x, P x -> P (SpecFloat.iter_pos f n x).
Proof.
  intros Hf. induction n as [n IH|n IH|]; intros x Hx; cbn; auto.
Qed.

Lemma shr_nonneg (r : shr_record) (e n : Z) :
  0 <= shr_m r -> 0 <= shr_m (fst (shr r e n)).
Proof.
  intros H. destruct n as [|p|p]; cbn; try exact H.
  apply (iter_pos_invariant (fun r => 0 <= shr_m r)); [apply shr_1_nonneg|exact H].
Qed.

Lemma shr_record_of_loc_m (m : Z) (l : location) :
  shr_m (shr_record_of_loc m l) = m.
Proof. destruct l as [|[| |]]; reflexivity. Qed.

Lemma shr_fexp_nonneg (prec emax m e : Z) (l : location) :
  0 <= m -> 0 <= shr_m (fst (shr_fexp prec emax m e l)).
Proof.
  intros H. unfold shr_fexp. apply shr_nonneg.
  by rewrite shr_record_of_loc_m.
Qed.

Lemma round_nearest_even_nonneg (m : Z) (l : location) :
  0 <= m -> 0 <= round_nearest_even m l.
Proof. destruct l as [|[| |]]; cbn; try destruct (Z.even m); lia. Qed.

Lemma binary_round_aux_nonneg (prec emax m e : Z) (l : location) :
  0 <= m -> SFnonneg (binary_round_aux prec emax false m e l).
Proof.
  intros H. unfold binary_round_aux.
  pose proof (shr_fexp_nonneg prec emax m e l H) as H1.
  destruct (shr_fexp prec emax m e l) as [mrs' e']. cbn [fst] in H1.
  pose proof (shr_fexp_nonneg prec emax _ e' loc_Exact
                (round_nearest_even_nonneg _ (loc_of_shr_record mrs') H1)) as H2.
  destruct (shr_fexp prec emax _ e' loc_Exact) as [mrs'' e'']. cbn [fst] in H2.
  destruct (shr_m mrs'') as [|p|p]; [exact I| |lia].
  destruct (e'' <=? emax - prec); exact I.
Qed.

Lemma binary_round_nonneg (prec emax : Z) (m : positive) (e : Z) :
  SFnonneg (binary_round prec emax false m e).
Proof.
  unfold binary_round. destruct (shl_align _ _ _) as [mz ez].
  apply binary_round_aux_nonneg. lia.
Qed.

Lemma binary_normalize_nonneg (prec emax m e : Z) :
  0 <= m -> SFnonneg (binary_normalize prec emax m e false).
Proof.
  intros H. destruct m as [|p|p]; cbn; [exact I| |lia].
  apply binary_round_nonneg.
Qed.

Lemma SFmul_nonneg (prec emax : Z) (x y : spec_float) :
  SFnonneg x -> SFnonneg y ->
  SFltb x (S754_infinity false) = true ->
  SFltb y (S754_infinity false) = true ->
  SFnonneg (SFmul prec emax x y).
Proof.
  destruct x as [[|]|[|]| |[|] mx ex], y as [[|]|[|]| |[|] my ey];
    cbn; try done.
  intros _ _ _ _. apply binary_round_aux_nonneg. lia.
Qed.

Lemma digits2_pos_size (p : positive) : digits2_pos p = Pos.size p.
Proof. induction p as [p IH|p IH|]; cbn; by rewrite ?IH. Qed.

Lemma digits2_pos_gt (p : positive) : Z.pos p < 2 ^ Z.pos (digits2_pos p).
Proof.
  rewrite digits2_pos_size. pose proof (Pos.size_gt p) as H.
  apply Pos2Z.pos_lt_pos in H. by rewrite Pos2Z.inj_pow in H.
Qed.

Lemma digits2_pos_le (p : positive) : 2 ^ Z.pos (digits2_pos p) <= 2 * Z.pos p.
Proof.
  rewrite digits2_pos_size. pose proof (Pos.size_le p) as H.
  apply Pos2Z.pos_le_pos in H. by rewrite Pos2Z.inj_pow in H.
Qed.

Lemma iter_xO_value (m d : positive) :
  Z.pos (Pos.iter xO m d) = Z.pos m * 2 ^ Z.pos d.
Proof.
  induction d as [|d IH] using Pos.peano_ind.
  - cbn. lia.
  - rewrite Pos.iter_succ, Pos2Z.inj_succ, Z.pow_succ_r by lia.
    rewrite Pos2Z.pos_xO, IH. lia.
Qed.

Lemma shl_align_value (mx : positive) (ex ex' : Z) :
  ex' <= ex ->
  Z.pos (fst (shl_align mx ex ex')) = Z.pos mx * 2 ^ (ex - ex').
Proof.
  intros H. unfold shl_align. destruct (ex' - ex) as [|d|d] eqn:E; cbn [fst].
  - replace (ex - ex') with 0 by lia. lia.
  - lia.
  - rewrite iter_xO_value. f_equal. f_equal. lia.
Qed.

(** A canonical mantissa has at most 53 bits, and exactly 53 above the
    least exponent. *)
Lemma canonical_digits (m : positive) (e : Z) :
  canonical_mantissa prec emax m e = true ->
  -1074 <= e /\ Z.pos (digits2_pos m) <= 53
  /\ (-1074 < e -> Z.pos (digits2_pos m) = 53).
Proof.
  unfold canonical_mantissa, fexp, SpecFloat.emin, prec, emax.
  intros H. apply Z.eqb_eq in H. lia.
Qed.

Lemma canonical_lt_value (mx my : positive) (ex ey : Z) :
  canonical_mantissa prec emax mx ex = true ->
  canonical_mantissa prec emax my ey = true ->
  ey < ex ->
  Z.pos my < Z.pos mx * 2 ^ (ex - ey).
Proof.
  intros Hx Hy Hlt.
  destruct (canonical_digits mx ex Hx) as (_ & _ & Hdx).
  destruct (canonical_digits my ey Hy) as (Hey & Hdy & _).
  specialize (Hdx ltac:(lia)).
  pose proof (digits2_pos_le mx) as Hmx. rewrite Hdx in Hmx.
  pose proof (digits2_pos_gt my) as Hmy.
  assert (2 ^ Z.pos (digits2_pos my) <= 2 ^ 53) as Hp
    by (apply Z.pow_le_mono_r; lia).
  assert (2 ^ 1 <= 2 ^ (ex - ey)) as Hq by (apply Z.pow_le_mono_r; lia).
  change (2 ^ 1) with 2 in Hq. nia.
Qed.

Lemma SFsub_nonneg (x y : spec_float) :
  SpecFloat.valid_binary prec emax x = true ->
  SpecFloat.valid_binary prec emax y = true ->
  SFnonneg x -> SFnonneg y ->
  SFltb x (S754_infinity false) = true ->
  SFleb y x = true ->
  SFnonneg (SFsub prec emax x y).
Proof.
  destruct x as [[|]|[|]| |[|] mx ex], y as [[|]|[|]| |[|] my ey];
    cbn [SFnonneg SFltb SFleb SFcompare SFsub SpecFloat.valid_binary];
    try done.
  unfold bounded. intros [Hx _]%andb_true_iff [Hy _]%andb_true_iff _ _ _ Hle.
  apply binary_normalize_nonneg. cbn [cond_Zopp].
  destruct (Z.compare_spec ey ex) as [->|Hlt|Hgt]; try discriminate.
  - rewrite Z.min_id, !shl_align_value by lia. rewrite Z.sub_diag.
    change (2 ^ 0) with 1.
    assert (Z.pos my <= Z.pos mx); [|lia].
    change (Z.pos my <= Z.pos mx) with (my <= mx)%positive.
    unfold Pos.le, Pos.compare. intros E. rewrite E in Hle. discriminate.
  - rewrite Z.min_r, !shl_align_value by lia. rewrite Z.sub_diag.
    change (2 ^ 0) with 1.
    pose proof (canonical_lt_value mx my ex ey Hx Hy Hlt). lia.
Qed.

Lemma shr_1_half (r : shr_record) :
  0 <= shr_m r -> shr_m (shr_1 r) = shr_m r / 2.
Proof.
  destruct r as [[|[p|p|]|p] b s]; cbn [shr_m shr_1]; intros H.
  - reflexivity.
  - apply (Z.div_unique _ _ _ 1); lia.
  - apply (Z.div_unique _ _ _ 0); lia.
  - reflexivity.
  - lia.
Qed.

Lemma pow2_xO (n : positive) :
  2 ^ Z.pos n~0 = 2 ^ Z.pos n * 2 ^ Z.pos n.
Proof.
  rewrite (Pos2Z.pos_xO n). apply Z.pow_twice_r.
Qed.

Lemma pow2_xI (n : positive) :
  2 ^ Z.pos n~1 = 2 * (2 ^ Z.pos n * 2 ^ Z.pos n).
Proof.
  rewrite (Pos2Z.pos_xI n), Z.pow_add_r, Z.pow_twice_r by lia.
  change (2 ^ 1) with 2. lia.
Qed.

Lemma iter_shr_1_floor (n : positive) : forall r,
  0 <= shr_m r ->
  shr_m (SpecFloat.iter_pos shr_1 n r) = shr_m r / 2 ^ Z.pos n.
Proof.
  assert (forall k : positive, 0 < 2 ^ Z.pos k) as Hpos
    by (intros k; apply Z.pow_pos_nonneg; lia).
  induction n as [n IH|n IH|]; intros r Hr; cbn [SpecFloat.iter_pos].
  - pose proof (shr_1_nonneg r Hr) as H1.
    pose proof (iter_pos_invariant (fun r => 0 <= shr_m r) shr_1
                  shr_1_nonneg n _ H1) as H2.
    pose proof (Hpos n).
    rewrite (IH _ H2), (IH _ H1), shr_1_half by exact Hr.
    rewrite !Z.div_div by lia. by rewrite pow2_xI.
  - pose proof (iter_pos_invariant (fun r => 0 <= shr_m r) shr_1
                  shr_1_nonneg n _ Hr) as H2.
    pose proof (Hpos n).
    rewrite (IH _ H2), (IH _ Hr).
    rewrite !Z.div_div by lia. by rewrite pow2_xO.
  - rewrite shr_1_half by exact Hr. reflexivity.
Qed.

Lemma shr_exponent (r : shr_record) (e n : Z) :
  snd (shr r e n) = e + Z.max n 0.
Proof. destruct n as [|p|p]; cbn; lia. Qed.

Lemma shr_floor (r : shr_record) (e n : Z) :
  0 <= shr_m r -> shr_m (fst (shr r e n)) = shr_m r / 2 ^ Z.max n 0.
Proof.
  intros H. destruct n as [|p|p]; cbn [shr fst].
  - change (Z.max 0 0) with 0. by rewrite Z.div_1_r.
  - rewrite iter_shr_1_floor by exact H. f_equal.
  - change (Z.max (Z.neg p) 0) with 0. by rewrite Z.div_1_r.
Qed.

Lemma round_nearest_even_le (m : Z) (l : location) :
  m <= round_nearest_even m l <= m + 1.
Proof. destruct l as [|[| |]]; cbn; try destruct (Z.even m); lia. Qed.

Lemma Zdigits2_nonneg (m : Z) : 0 <= Zdigits2 m.
Proof. destruct m; cbn; lia. Qed.

Lemma Zdigits2_gt (m : Z) : 0 <= m -> m < 2 ^ Zdigits2 m.
Proof.
  destruct m as [|p|p]; cbn [Zdigits2]; intros H; [done| |lia].
  apply digits2_pos_gt.
Qed.

Lemma Zdigits2_le_of_lt (q k : Z) : 0 <= k -> 0 <= q < 2 ^ k -> Zdigits2 q <= k.
Proof.
  intros Hk [Hq Hlt]. destruct q as [|p|p]; cbn [Zdigits2]; [lia| |lia].
  pose proof (digits2_pos_le p) as H.
  assert (2 ^ Z.pos (digits2_pos p) < 2 ^ (k + 1)) as Hp.
  { rewrite Z.pow_add_r by lia. change (2 ^ 1) with 2. lia. }
  apply Z.pow_lt_mono_r_iff in Hp; lia.
Qed.

Lemma Zdigits2_succ (m m' : Z) :
  0 <= m -> 0 <= m' <= m + 1 -> Zdigits2 m' <= Zdigits2 m + 1.
Proof.
  intros Hm Hm'. pose proof (Zdigits2_nonneg m) as Hd.
  pose proof (Zdigits2_gt m Hm) as Hlt.
  apply Zdigits2_le_of_lt; [lia|].
  rewrite Z.pow_add_r by lia. change (2 ^ 1) with 2. lia.
Qed.

Lemma Zdigits2_shift (m k : Z) :
  0 <= m -> 0 <= k ->
  Zdigits2 (m / 2 ^ k) <= Z.max (Zdigits2 m - k) 0.
Proof.
  intros Hm Hk. pose proof (Zdigits2_nonneg m) as Hd.
  pose proof (Zdigits2_gt m Hm) as Hlt.
  assert (0 < 2 ^ k) as Hp by (apply Z.pow_pos_nonneg; lia).
  destruct (Z.le_gt_cases k (Zdigits2 m)) as [Hle|Hgt].
  - rewrite Z.max_l by lia. apply Zdigits2_le_of_lt; [lia|]. split.
    + apply Z.div_pos; lia.
    + apply Z.div_lt_upper_bound; [lia|].
      rewrite <- Z.pow_add_r by lia. by replace (k + (Zdigits2 m - k)) with (Zdigits2 m) by lia.
  - rewrite Z.div_small; [cbn; lia|]. split; [lia|].
    eapply Z.lt_le_trans; [exact Hlt|]. apply Z.pow_le_mono_r; lia.
Qed.

Lemma SFmul_tenth_le (mx : positive) (ex : Z) :
  bounded prec emax mx ex = true ->
  SFleb (SFmul prec emax (S754_finite false mx ex) SFtenth)
        (S754_finite false mx ex) = true.
Proof.
  unfold bounded. intros [Hc Hb]%andb_true_iff. apply Z.leb_le in Hb.
  destruct (canonical_digits mx ex Hc) as (Hex & Hdx & _).
  unfold prec, emax in Hb. cbn in Hb.
  cbn [SFmul SFtenth xorb]. unfold binary_round_aux.
  set (P := Z.pos (mx * 7205759403792794)).
  assert (0 <= P) as HP by (subst P; lia).
  assert (Zdigits2 P <= Z.pos (digits2_pos mx) + 53) as HdP.
  { apply Zdigits2_le_of_lt; [lia|]. split; [exact HP|].
    rewrite Z.pow_add_r by lia. subst P. rewrite Pos2Z.inj_mul.
    pose proof (digits2_pos_gt mx). 
    assert (7205759403792794 < 2 ^ 53) by (by vm_compute).
    nia. }
  pose proof (Zdigits2_nonneg P) as HdP0.
  (* first shift *)
  destruct (shr_fexp prec emax P (ex + -56) loc_Exact) as [mrs' e'] eqn:E1.
  unfold shr_fexp in E1.
  pose proof (f_equal snd E1) as He'. pose proof (f_equal fst E1) as Hm1.
  cbn [fst snd] in He', Hm1. rewrite shr_exponent in He'.
  apply (f_equal shr_m) in Hm1.
  rewrite shr_floor, shr_record_of_loc_m in Hm1
    by (rewrite shr_record_of_loc_m; exact HP).
  clear E1. unfold fexp, SpecFloat.emin, prec, emax in He', Hm1.
  set (k := Z.max (Z.max (Zdigits2 P + (ex + -56) - 53) (3 - 1024 - 53)
                   - (ex + -56)) 0) in *.
  assert (0 <= k) as Hk by (subst k; lia).
  assert (0 < 2 ^ k) as Hpk by (apply Z.pow_pos_nonneg; lia).
  assert (0 <= shr_m mrs') as Hm1pos by (rewrite <- Hm1; apply Z.div_pos; lia).
  pose proof (Zdigits2_shift P k HP Hk) as Hd1. rewrite Hm1 in Hd1.
  (* rounding *)
  pose proof (round_nearest_even_le (shr_m mrs') (loc_of_shr_record mrs'))
    as Hr.
  set (m2 := round_nearest_even (shr_m mrs') (loc_of_shr_record mrs')) in *.
  pose proof (Zdigits2_succ (shr_m mrs') m2 Hm1pos ltac:(lia)) as Hd2.
  pose proof (Zdigits2_nonneg m2) as Hd20.
  pose proof (Zdigits2_nonneg (shr_m mrs')) as Hd10.
  (* second shift *)
  destruct (shr_fexp prec emax m2 e' loc_Exact) as [mrs'' e''] eqn:E2.
  unfold shr_fexp in E2.
  pose proof (f_equal snd E2) as He''. pose proof (f_equal fst E2) as Hm3.
  cbn [fst snd] in He'', Hm3. rewrite shr_exponent in He''.
  apply (f_equal shr_m) in Hm3.
  rewrite shr_floor, shr_record_of_loc_m in Hm3
    by (rewrite shr_record_of_loc_m; lia).
  clear E2. unfold fexp, SpecFloat.emin, prec, emax in He'', Hm3.
  set (k2 := Z.max (Z.max (Zdigits2 m2 + e' - 53) (3 - 1024 - 53) - e') 0) in *.
  assert (0 <= k2) as Hk2 by (subst k2; lia).
  assert (0 < 2 ^ k2) as Hpk2 by (apply Z.pow_pos_nonneg; lia).
  assert (0 <= shr_m mrs'' <= m2) as Hm3b.
  { rewrite <- Hm3. split; [apply Z.div_pos; lia|].
    apply Z.div_le_upper_bound; [lia|]. nia. }
  assert (e'' <= ex /\ (e'' = ex -> k = 56)) as [Hle Heq].
  { subst e'' e'. subst k k2. lia. }
  destruct (shr_m mrs'') as [|p|p] eqn:Ep; [reflexivity| |lia].
  unfold emax, prec. cbn [Z.sub Z.pos_sub Z.succ_double Z.pred_double Z.double Pos.pred_double].
  replace (e'' <=? 1024 - 53) with true by (symmetry; apply Z.leb_le; lia).
  cbn [SFleb SFcompare].
  destruct (Z.compare_spec e'' ex) as [Heq'|Hlt|Hgt]; [|reflexivity|lia].
  specialize (Heq Heq').
  assert (Z.pos p <= Z.pos mx) as Hpm.
  { assert (shr_m mrs' * 2 ^ 56 <= P) as Hfl.
    { rewrite <- Hm1, Heq, Z.mul_comm. apply Z.mul_div_le. lia. }
    subst P. rewrite Pos2Z.inj_mul in Hfl.
    change (2 ^ 56) with 72057594037927936 in Hfl. lia. }
  change (Z.pos p <= Z.pos mx) with (p <= mx)%positive in Hpm.
  unfold Pos.le, Pos.compare in Hpm.
  destruct (Pos.compare_cont Eq p mx); congruence.
Qed.
End Rounding.

(** * The program's arithmetic: binary64 *)

Section Binary64.
Local Open Scope float_scope.

Lemma SFcompare_antisym (x y : spec_float) :
  SFcompare y x = option_map CompOpp (SFcompare x y).
Proof.
  destruct x as [[|]|[|]| |[|] mx ex], y as [[|]|[|]| |[|] my ey];
    cbn [SFcompare option_map CompOpp]; try reflexivity.
  all: rewrite (Z.compare_antisym ex ey);
    destruct (ex ?= ey)%Z; cbn [CompOpp]; try reflexivity;
    rewrite (Pos.compare_cont_antisym mx my Eq); reflexivity.
Qed.

Lemma is_nan_false_compare (x y : float) :
  is_nan x = false -> is_nan y = false ->
  exists c, SFcompare (Prim2SF x) (Prim2SF y) = Some c.
Proof.
  unfold is_nan. rewrite !FloatAxioms.eqb_spec. unfold SFeqb.
  destruct (Prim2SF x) as [[|]|[|]| |[|] mx ex],
           (Prim2SF y) as [[|]|[|]| |[|] my ey];
    cbn [SFcompare negb]; intros Hx Hy; try discriminate; eauto.
Qed.

(** Away from NaN, "not less than" is "greater than or equal to". *)
Lemma ltb_false_iff_leb (x y : float) :
  is_nan x = false -> is_nan y = false ->
  (x <? y) = false <-> (y <=? x) = true.
Proof.
  intros Hx Hy. destruct (is_nan_false_compare x y Hx Hy) as [c Hc].
  rewrite FloatAxioms.ltb_spec, FloatAxioms.leb_spec. unfold SFltb, SFleb.
  rewrite (SFcompare_antisym (Prim2SF x) (Prim2SF y)), Hc.
  destruct c; cbn; split; congruence.
Qed.

Lemma ltb_zero_nonzero (r : float) : (0 <? r) = true -> (r =? 0) = false.
Proof.
  rewrite FloatAxioms.ltb_spec, FloatAxioms.eqb_spec. unfold SFltb, SFeqb.
  rewrite (SFcompare_antisym (Prim2SF 0) (Prim2SF r)).
  destruct (SFcompare (Prim2SF 0) (Prim2SF r)) as [[| |]|]; cbn; congruence.
Qed.

Lemma leb_zero_not_ltb (r : float) : (r <=? 0) = true -> (0 <? r) = false.
Proof.
  rewrite FloatAxioms.ltb_spec, FloatAxioms.leb_spec. unfold SFltb, SFleb.
  rewrite (SFcompare_antisym (Prim2SF 0) (Prim2SF r)).
  destruct (SFcompare (Prim2SF 0) (Prim2SF r)) as [[| |]|]; cbn; congruence.
Qed.


Lemma Prim2SF_zero : Prim2SF 0 = S754_zero false.
Proof. reflexivity. Qed.
Lemma Prim2SF_infinity : Prim2SF infinity = S754_infinity false.
Proof. reflexivity. Qed.
Lemma Prim2SF_tenth : Prim2SF 0x1.999999999999ap-4 = SFtenth.
Proof. vm_compute. reflexivity. Qed.

Lemma leb_zero_SFnonneg (x : float) :
  (0 <=? x) = true <-> SFnonneg (Prim2SF x).
Proof.
  rewrite FloatAxioms.leb_spec, Prim2SF_zero. symmetry. apply SFnonneg_leb.
Qed.

Lemma ltb_infinity_spec (x : float) :
  (x <? infinity) = SFltb (Prim2SF x) (S754_infinity false).
Proof. by rewrite FloatAxioms.ltb_spec, Prim2SF_infinity. Qed.

Lemma float_mul_nonneg (x y : float) :
  (0 <=? x) = true -> (x <? infinity) = true ->
  (0 <=? y) = true -> (y <? infinity) = true ->
  (0 <=? x * y) = true.
Proof.
  rewrite !leb_zero_SFnonneg, !ltb_infinity_spec, mul_spec.
  intros Hx Fx Hy Fy. by apply SFmul_nonneg.
Qed.

Lemma float_sub_nonneg (x y : float) :
  (0 <=? x) = true -> (x <? infinity) = true ->
  (0 <=? y) = true -> (y <=? x) = true ->
  (0 <=? x - y) = true.
Proof.
  rewrite !leb_zero_SFnonneg, !ltb_infinity_spec, sub_spec.
  rewrite FloatAxioms.leb_spec.
  intros Hx Fx Hy Hle. apply SFsub_nonneg; auto using Prim2SF_valid.
Qed.

Lemma float_tenth_le (x : float) :
  (0 <=? x) = true -> (x <? infinity) = true ->
  (x * 0x1.999999999999ap-4 <=? x) = true.
Proof.
  rewrite leb_zero_SFnonneg, ltb_infinity_spec.
  rewrite FloatAxioms.leb_spec, mul_spec, Prim2SF_tenth.
  pose proof (Prim2SF_valid x) as Hv.
  destruct (Prim2SF x) as [[|]|[|]| |[|] mx ex]; cbn; try done.
  intros _ _. by apply SFmul_tenth_le.
Qed.

(** C2, amended.  When neither the amount nor the balance is NaN, each
    funds check lets the proposal through exactly when the balance is
    greater than or equal to the amount: the bank balance for a USD expense
    and for a sale of dollars, the cash balance for a DZD expense, the
    PayPal balance for a PayPal transfer.  A DZD expense of 5000 is stopped
    with 3000 in cash and let through with 5000. *)
Theorem guard_accepts_iff_covered :
  (forall (s : @stats float) (amt : float),
     is_nan amt = false ->
     is_nan (usd_savings s) = false ->
     is_nan (paypal_balance s) = false ->
     is_nan (dzd_cash s) = false ->
     (insufficient_expense "USD" s amt = false
      <-> (amt <=? usd_savings s) = true)
     /\ (insufficient_usd s amt = false <-> (amt <=? usd_savings s) = true)
     /\ (insufficient_expense "DZD" s amt = false
         <-> (amt <=? dzd_cash s) = true)
     /\ (insufficient_paypal s amt = false
         <-> (amt <=? paypal_balance s) = true))
  /\ insufficient_expense "DZD" (set_dzd_cash 3000 stats0) 5000 = true
  /\ insufficient_expense "DZD" (set_dzd_cash 5000 stats0) 5000 = false.
Proof.
  split; [|split; reflexivity].
  intros s amt Ha Hu Hp Hd.
  unfold insufficient_expense, insufficient_usd, insufficient_paypal.
  cbn [String.eqb Ascii.eqb Bool.eqb andb orb num_ltb float_arith].
  rewrite !orb_false_r.
  repeat split; apply ltb_false_iff_leb; assumption.
Qed.

(** C2 as stated fails: the text "nan" parses to a float, no balance is
    less than it, and the DZD expense is appended although the cash
    balance, zero, is not greater than or equal to the amount. *)
Lemma guard_accepts_nan_amount :
  insufficient_expense "DZD" (@stats0 float _) nan = false
  /\ (nan <=? dzd_cash (@stats0 float _)) = false
  /\ transactions (fst (add_expense (Some nan) "DZD (Cash)" "Other" "x"
                          "id" some_day true float_app0))
     = [expense_dict "id" "2024-03-31" "Other - x" nan "DZD"].
Proof. repeat split; reflexivity. Qed.

(** C3 as stated fails: the same three incomes, 0.1, 0.2 and 0.3, added in
    opposite orders give the bank balances 0.6000000000000001 and 0.6. *)
Lemma balances_depend_on_order :
  transactions float_app_321 = rev (transactions float_app_123)
  /\ Permutation (transactions float_app_123) (transactions float_app_321)
  /\ exists s1 s2,
       calculate_stats float_app_123 = Ok s1
       /\ calculate_stats float_app_321 = Ok s2
       /\ usd_savings s1 = 0x1.3333333333334p-1
       /\ usd_savings s2 = 0x1.3333333333333p-1
       /\ (usd_savings s1 =? usd_savings s2) = false.
Proof.
  assert (transactions float_app_321 = rev (transactions float_app_123))
    as Hrev by reflexivity.
  split; [exact Hrev|]. split.
  - rewrite Hrev. apply Permutation_rev.
  - vm_compute. do 2 eexists. repeat split.
Qed.

(** C5 as stated fails: an income of -100 is appended as it is typed, and a
    PayPal transfer of 3 dollars by the manual method stores -2 as the
    amount received. *)
Lemma negative_amounts_are_appended :
  transactions (fst (run (PressAddIncome (Some (-100)) None "No Fee"
                            "refund" "off")
                       "id" some_day true float_app0))
  = [income_dict "id" "2024-03-31" "refund" (-100) 0 (-100) false]
  /\ (-100 <? 0) = true
  /\ (exists t,
        transactions (fst (run (PressProcess (Some 3) "Manual ($5 Fee)")
                             "id" some_day true float_app_paypal10))
        = transactions float_app_paypal10 ++ [t]
        /\ t !! "amount_received" = Some (VNum (-2)))
  /\ (-2 <? 0) = true.
Proof.
  split; [reflexivity|]. split; [reflexivity|].
  split; [|reflexivity].
  eexists. split; reflexivity.
Qed.

(** C7.  The net worth is computed for every balance and every display
    rate: it is bank + PayPal + cash / rate when the rate is positive, and
    bank + PayPal + 0 when the rate is zero or negative; the division is
    never done by zero. *)
Theorem total_nw_total (s : @stats float) (r : float) :
  total_nw s r
  = Ok (usd_savings s + paypal_balance s
        + (if 0 <? r then dzd_cash s / r else 0))
  /\ ((0 <? r) = true ->
      total_nw s r
      = Ok (usd_savings s + paypal_balance s + dzd_cash s / r))
  /\ ((r <=? 0) = true ->
      total_nw s r = Ok (usd_savings s + paypal_balance s + 0)).
Proof.
  unfold total_nw, truediv.
  cbn [num_ltb num_eqb num_zero num_add num_div float_arith].
  destruct (0 <? r) eqn:E.
  - rewrite (ltb_zero_nonzero r E). cbn [mbind result_bind].
    repeat split. intros H. apply leb_zero_not_ltb in H. congruence.
  - cbn [mbind result_bind]. repeat split. discriminate.
Qed.

(** The scenarios of the specification: 1000 dollars earned with the 10%
    fee, 400 spent, 500 sold at 200 leave an empty bank account, 100000
    dinars and a net worth of 500; 200 dollars sent from PayPal by the
    manual method leave 195 in the bank. *)
Example scenario_bank_stats :
  (s ← calculate_stats scenario_bank;
   nw ← total_nw s (display_rate scenario_bank);
   Ok (s, nw))
  = Ok ({| usd_savings := 0; paypal_balance := 0; dzd_cash := 100000;
           month_earned := 900; month_spent_usd := 400;
           month_spent_dzd := 0 |}, 500).
Proof. vm_compute. reflexivity. Qed.

Example scenario_paypal_stats :
  calculate_stats scenario_paypal
  = Ok {| usd_savings := 195; paypal_balance := 0; dzd_cash := 0;
          month_earned := 200; month_spent_usd := 0; month_spent_dzd := 0 |}.
Proof. vm_compute. reflexivity. Qed.

(** C5, amended.  When the entered amounts and rate are finite and not
    negative, a fee typed by hand lies between zero and the gross amount
    and a PayPal transfer covers its fee, every number stored in the
    transaction an action appends is greater than or equal to zero.  The
    actions themselves test no sign. *)
Theorem accepted_amounts_nonneg (a : @action float) (uuid4 : string)
    (now : date) (saved : bool) (st : @app float)
    (t : gmap string (@value float)) :
  nonneg_inputs a ->
  transactions (fst (run a uuid4 now saved st)) = transactions st ++ [t] ->
  forall k x, t !! k = Some (VNum x) -> (0 <=? x) = true.
Proof.
  destruct a as [[g|] fee_val fee_type name chk|[amt|] method
                |[usd|] [rate|]|[amt|] curr cat desc];
    cbn [run nonneg_inputs]; intros Hin Hst k x Hk;
    try (exfalso; exact (app_self_singleton _ _ Hst)).
  - (* add_income *)
    destruct Hin as [[Hg Fg] Hfee]. unfold add_income in Hst.
    cbn [float_entry mbind result_bind] in Hst.
    destruct (contains "Manual" fee_type).
    + destruct fee_val as [f|];
        [|exfalso; exact (app_self_singleton _ _ Hst)].
      destruct (Hfee eq_refl) as [Hf Hfg].
      cbn [try_except add_transaction_to_db fst set_transactions
           transactions] in Hst.
      apply app_singleton_inv in Hst. subst t.
      revert Hk. apply (income_dict_fields (fun x => (0 <=? x) = true));
        [exact Hg|exact Hf|].
      by apply float_sub_nonneg.
    + cbn [try_except add_transaction_to_db fst set_transactions
           transactions mbind result_bind] in Hst.
      apply app_singleton_inv in Hst. subst t.
      destruct (contains "Upwork" fee_type).
      * assert ((0 <=? g * 0x1.999999999999ap-4) = true) as Hfee'
          by (by apply float_mul_nonneg).
        revert Hk. apply (income_dict_fields (fun x => (0 <=? x) = true));
          [exact Hg|exact Hfee'|].
        apply float_sub_nonneg; [done..|]. by apply float_tenth_le.
      * revert Hk. apply (income_dict_fields (fun x => (0 <=? x) = true));
          [exact Hg|reflexivity|].
        by apply float_sub_nonneg.
  - (* transfer_paypal_to_bank *)
    destruct Hin as [[Ha Fa] Hfee]. unfold transfer_paypal_to_bank in Hst.
    cbn [float_entry mbind result_bind] in Hst.
    destruct (calculate_stats st) as [s|e];
      [|exfalso; exact (app_self_singleton _ _ Hst)].
    cbn [mbind result_bind] in Hst.
    destruct (insufficient_paypal s amt);
      [exfalso; exact (app_self_singleton _ _ Hst)|].
    cbn [try_except add_transaction_to_db fst set_transactions
         transactions] in Hst.
    apply app_singleton_inv in Hst. subst t.
    assert ((0 <=? (if contains "Manual" method then 5 else 0)) = true)
      as Hfee0 by (by destruct (contains "Manual" method)).
    revert Hk.
    apply (transfer_paypal_bank_dict_fields (fun x => (0 <=? x) = true));
      [exact Ha|exact Hfee0|].
    by apply float_sub_nonneg.
  - (* transfer_usd_to_dzd *)
    destruct Hin as [[Hu Fu] [Hr Fr]]. unfold transfer_usd_to_dzd in Hst.
    cbn [float_entry mbind result_bind] in Hst.
    destruct (calculate_stats st) as [s|e];
      [|exfalso; exact (app_self_singleton _ _ Hst)].
    cbn [mbind result_bind] in Hst.
    destruct (insufficient_usd s usd);
      [exfalso; exact (app_self_singleton _ _ Hst)|].
    cbn [try_except add_transaction_to_db fst set_transactions
         transactions] in Hst.
    apply app_singleton_inv in Hst. subst t.
    revert Hk.
    apply (transfer_usd_dzd_dict_fields (fun x => (0 <=? x) = true));
      [exact Hu|exact Hr|].
    by apply float_mul_nonneg.
  - (* add_expense *)
    unfold add_expense in Hst.
    cbn [float_entry mbind result_bind] in Hst.
    destruct (calculate_stats st) as [s|e];
      [|exfalso; exact (app_self_singleton _ _ Hst)].
    cbn [mbind result_bind] in Hst.
    destruct (insufficient_expense _ s amt);
      [exfalso; exact (app_self_singleton _ _ Hst)|].
    cbn [try_except add_transaction_to_db fst set_transactions
         transactions] in Hst.
    apply app_singleton_inv in Hst. subst t.
    revert Hk.
    apply (expense_dict_fields (fun x => (0 <=? x) = true)). exact Hin.
Qed.

End Binary64.

(** * Sums that do not round *)

Section Exactness.
Local Open Scope Z_scope.

Lemma shr_1_even (q : Z) :
  0 <= q ->
  shr_1 {| shr_m := 2 * q; shr_r := false; shr_s := false |}
  = {| shr_m := q; shr_r := false; shr_s := false |}.
Proof. destruct q as [|p|p]; [reflexivity|reflexivity|lia]. Qed.

Lemma iter_shr_1_exact (n : positive) : forall q,
  0 <= q ->
  SpecFloat.iter_pos shr_1 n
    {| shr_m := q * 2 ^ Z.pos n; shr_r := false; shr_s := false |}
  = {| shr_m := q; shr_r := false; shr_s := false |}.
Proof.
  assert (forall k : positive, 0 < 2 ^ Z.pos k) as Hpos
    by (intros k; apply Z.pow_pos_nonneg; lia).
  induction n as [n IH|n IH|]; intros q Hq; cbn [SpecFloat.iter_pos].
  - rewrite pow2_xI.
    replace (q * (2 * (2 ^ Z.pos n * 2 ^ Z.pos n)))
      with (2 * (q * 2 ^ Z.pos n * 2 ^ Z.pos n)) by lia.
    pose proof (Hpos n).
    rewrite shr_1_even by nia. rewrite IH by nia. by apply IH.
  - rewrite pow2_xO.
    replace (q * (2 ^ Z.pos n * 2 ^ Z.pos n))
      with (q * 2 ^ Z.pos n * 2 ^ Z.pos n) by lia.
    pose proof (Hpos n). rewrite IH by nia. by apply IH.
  - change (2 ^ 1) with 2. replace (q * 2) with (2 * q) by lia.
    by apply shr_1_even.
Qed.

Lemma Zdigits2_mul_pow2 (m k : Z) :
  0 < m -> 0 <= k -> Zdigits2 (m * 2 ^ k) = Zdigits2 m + k.
Proof.
  intros Hm Hk.
  assert (0 < 2 ^ k) as Hp by (apply Z.pow_pos_nonneg; lia).
  pose proof (Zdigits2_nonneg m) as Hd.
  pose proof (Zdigits2_gt m ltac:(lia)) as Hlt.
  assert (2 ^ Zdigits2 m <= 2 * m) as Hle.
  { destruct m as [|p|p]; [lia| |lia]. apply digits2_pos_le. }
  assert (0 < m * 2 ^ k) as Hmk by nia.
  pose proof (Zdigits2_nonneg (m * 2 ^ k)) as Hd'.
  pose proof (Zdigits2_gt (m * 2 ^ k) ltac:(lia)) as Hlt'.
  assert (2 ^ Zdigits2 (m * 2 ^ k) <= 2 * (m * 2 ^ k)) as Hle'.
  { destruct (m * 2 ^ k) as [|p|p]; [lia| |lia]. apply digits2_pos_le. }
  assert (2 ^ Zdigits2 (m * 2 ^ k) < 2 ^ (Zdigits2 m + k + 1)) as H1.
  { rewrite !Z.pow_add_r by lia. change (2 ^ 1) with 2. nia. }
  assert (2 ^ (Zdigits2 m + k) < 2 ^ (Zdigits2 (m * 2 ^ k) + 1)) as H2.
  { rewrite !Z.pow_add_r by lia. change (2 ^ 1) with 2. nia. }
  apply Z.pow_lt_mono_r_iff in H1; [|lia..].
  apply Z.pow_lt_mono_r_iff in H2; [|lia..]. lia.
Qed.

Lemma Zdigits2_whole (z : Z) : 0 < z < 2 ^ 53 -> 1 <= Zdigits2 z <= 53.
Proof.
  intros Hz. split.
  - destruct z as [|p|p]; cbn [Zdigits2]; lia.
  - apply Zdigits2_le_of_lt; lia.
Qed.

Lemma fexp_normal (d : Z) : -1021 <= d -> fexp prec emax d = d - 53.
Proof. unfold fexp, SpecFloat.emin, prec, emax. lia. Qed.

(** Rounding a number that needs no rounding: [z * 2^e0] with [z] below
    [2^53], given with trailing zero bits at the exponent [ez]. *)
Lemma binary_round_aux_whole (s : bool) (z e0 ez : Z) :
  0 < z < 2 ^ 53 -> -1022 <= e0 <= 0 -> ez <= Zdigits2 z + e0 - 53 ->
  binary_round_aux prec emax s (z * 2 ^ (e0 - ez)) ez loc_Exact
  = S754_finite s (Z.to_pos (z * 2 ^ (53 - Zdigits2 z)))
      (Zdigits2 z + e0 - 53).
Proof.
  intros Hz He0 He. pose proof (Zdigits2_whole z Hz) as Hd.
  set (d := Zdigits2 z) in *.
  assert (0 < 2 ^ (53 - d)) as Hp by (apply Z.pow_pos_nonneg; lia).
  assert (0 < 2 ^ (e0 - ez)) as Hp' by (apply Z.pow_pos_nonneg; lia).
  assert (shr_fexp prec emax (z * 2 ^ (e0 - ez)) ez loc_Exact
          = ({| shr_m := z * 2 ^ (53 - d); shr_r := false; shr_s := false |},
             d + e0 - 53)) as E1.
  { unfold shr_fexp. rewrite Zdigits2_mul_pow2 by lia. fold d.
    replace (d + (e0 - ez) + ez) with (d + e0) by lia.
    rewrite fexp_normal by lia.
    cbn [shr_record_of_loc]. unfold shr.
    destruct (d + e0 - 53 - ez) as [|n|n] eqn:En; [| |lia].
    - replace (e0 - ez) with (53 - d) by lia. f_equal; lia.
    - replace (z * 2 ^ (e0 - ez)) with (z * 2 ^ (53 - d) * 2 ^ Z.pos n).
      + rewrite iter_shr_1_exact by nia. f_equal; lia.
      + rewrite <- Z.mul_assoc, <- Z.pow_add_r by lia. do 2 f_equal; lia. }
  assert (shr_fexp prec emax (z * 2 ^ (53 - d)) (d + e0 - 53) loc_Exact
          = ({| shr_m := z * 2 ^ (53 - d); shr_r := false; shr_s := false |},
             d + e0 - 53)) as E2.
  { unfold shr_fexp. rewrite Zdigits2_mul_pow2 by lia. fold d.
    replace (d + (53 - d) + (d + e0 - 53)) with (d + e0) by lia.
    rewrite fexp_normal by lia. by rewrite Z.sub_diag. }
  unfold binary_round_aux. rewrite E1. cbn [shr_m loc_of_shr_record
    round_nearest_even]. rewrite E2. cbn [shr_m].
  destruct (z * 2 ^ (53 - d)) as [|p|p] eqn:Ep; [nia| |nia].
  cbn [Z.to_pos].
  assert ((d + e0 - 53 <=? emax - prec) = true) as ->; [|reflexivity].
  apply Z.leb_le. unfold emax, prec. lia.
Qed.

Lemma shl_align_snd (mx : positive) (ex ex' : Z) :
  snd (shl_align mx ex ex') = Z.min ex ex'.
Proof.
  unfold shl_align. destruct (ex' - ex) as [|p|p] eqn:E; cbn [snd]; lia.
Qed.

Lemma shl_align_fst (mx : positive) (ex ex' : Z) :
  Z.pos (fst (shl_align mx ex ex'))
  = Z.pos mx * 2 ^ (ex - Z.min ex ex').
Proof.
  destruct (Z.le_gt_cases ex' ex) as [H|H].
  - rewrite shl_align_value by exact H. by rewrite Z.min_r by lia.
  - unfold shl_align. destruct (ex' - ex) as [|p|p] eqn:E; try lia.
    cbn [fst]. rewrite Z.min_l by lia. rewrite Z.sub_diag. lia.
Qed.

Lemma binary_round_whole (s : bool) (z e0 k : Z) :
  0 < z < 2 ^ 53 -> -1022 <= e0 <= 0 -> 0 <= k ->
  binary_round prec emax s (Z.to_pos (z * 2 ^ k)) (e0 - k)
  = S754_finite s (Z.to_pos (z * 2 ^ (53 - Zdigits2 z)))
      (Zdigits2 z + e0 - 53).
Proof.
  intros Hz He0 Hk. pose proof (Zdigits2_whole z Hz) as Hd.
  assert (0 < 2 ^ k) as Hp by (apply Z.pow_pos_nonneg; lia).
  unfold binary_round.
  change (Z.pos (digits2_pos ?p)) with (Zdigits2 (Z.pos p)).
  rewrite Z2Pos.id by nia. rewrite Zdigits2_mul_pow2 by lia.
  replace (Zdigits2 z + k + (e0 - k)) with (Zdigits2 z + e0) by lia.
  rewrite fexp_normal by lia.
  pose proof (shl_align_snd (Z.to_pos (z * 2 ^ k)) (e0 - k)
                (Zdigits2 z + e0 - 53)) as Hs.
  pose proof (shl_align_fst (Z.to_pos (z * 2 ^ k)) (e0 - k)
                (Zdigits2 z + e0 - 53)) as Hf.
  destruct (shl_align _ _ _) as [mz ez]. cbn [fst snd] in Hs, Hf.
  rewrite Z2Pos.id in Hf by nia.
  replace (Z.pos mz) with (z * 2 ^ (e0 - ez)).
  - apply binary_round_aux_whole; lia.
  - rewrite Hf, <- Z.mul_assoc, <- Z.pow_add_r by lia. do 2 f_equal; lia.
Qed.

(** The shape of [z / 2^q]. *)
Lemma SFdyadic_shape (q z : Z) :
  0 <= q <= 1022 -> 0 < Z.abs z < 2 ^ 53 ->
  SFdyadic q z
  = S754_finite (z <? 0)
      (Z.to_pos (Z.abs z * 2 ^ (53 - Zdigits2 (Z.abs z))))
      (Zdigits2 (Z.abs z) - q - 53).
Proof.
  intros Hq Hz. unfold SFdyadic.
  destruct z as [|p|p]; [cbn in Hz; lia| |]; cbn [binary_normalize Z.abs Z.ltb Z.compare].
  - pose proof (binary_round_whole false (Z.pos p) (- q) 0
                  ltac:(lia) ltac:(lia) ltac:(lia)) as H0.
    rewrite Z.sub_0_r in H0.
    replace (Z.pos p * 2 ^ 0) with (Z.pos p) in H0 at 1 by lia.
    cbn [Z.to_pos] in H0. rewrite H0. f_equal; lia.
  - pose proof (binary_round_whole true (Z.pos p) (- q) 0
                  ltac:(lia) ltac:(lia) ltac:(lia)) as H0.
    rewrite Z.sub_0_r in H0.
    replace (Z.pos p * 2 ^ 0) with (Z.pos p) in H0 at 1 by lia.
    cbn [Z.to_pos] in H0. rewrite H0. f_equal; lia.
Qed.

(** The same number given with trailing zero bits. *)
Lemma binary_normalize_whole (q z k : Z) :
  0 <= q <= 1022 -> Z.abs z < 2 ^ 53 -> 0 <= k ->
  binary_normalize prec emax (z * 2 ^ k) (- q - k) false = SFdyadic q z.
Proof.
  intros Hq Hz Hk.
  assert (0 < 2 ^ k) as Hp by (apply Z.pow_pos_nonneg; lia).
  destruct (Z.eq_dec z 0) as [->|Hne]; [reflexivity|].
  rewrite SFdyadic_shape by lia.
  destruct z as [|p|p]; [done| |].
  - destruct (Z.pos p * 2 ^ k) as [|m|m] eqn:E; [nia| |nia].
    cbn [binary_normalize].
    replace m with (Z.to_pos (Z.pos p * 2 ^ k)) by (by rewrite E).
    rewrite (binary_round_whole false (Z.pos p) (- q) k) by lia.
    cbn [Z.abs Z.ltb Z.compare]. f_equal; lia.
  - destruct (Z.neg p * 2 ^ k) as [|m|m] eqn:E; [nia|nia|].
    cbn [binary_normalize].
    assert (Z.pos p * 2 ^ k = Z.pos m) as E' by lia.
    replace m with (Z.to_pos (Z.pos p * 2 ^ k)) by (by rewrite E').
    rewrite (binary_round_whole true (Z.pos p) (- q) k) by lia.
    cbn [Z.abs Z.ltb Z.compare]. f_equal; lia.
Qed.

(** What the addition of two such numbers is handed. *)
Lemma SFdyadic_aligned (q z : Z) (m : positive) (e ez : Z) (s : bool) :
  0 <= q <= 1022 -> 0 < Z.abs z < 2 ^ 53 ->
  SFdyadic q z = S754_finite s m e ->
  ez <= e ->
  e <= - q
  /\ cond_Zopp s (Z.pos (fst (shl_align m e ez))) = z * 2 ^ (- q - ez).
Proof.
  intros Hq Hz Hs Hez. rewrite SFdyadic_shape in Hs by lia.
  injection Hs as Es Em Ee.
  pose proof (Zdigits2_whole (Z.abs z) Hz) as Hd.
  set (d := Zdigits2 (Z.abs z)) in *.
  assert (0 < 2 ^ (53 - d)) as Hp by (apply Z.pow_pos_nonneg; lia).
  split; [lia|].
  rewrite shl_align_value by lia. rewrite <- Em, Z2Pos.id by nia.
  rewrite <- Z.mul_assoc, <- Z.pow_add_r by lia.
  replace (53 - d + (e - ez)) with (- q - ez) by lia.
  subst s. destruct (Z.ltb_spec z 0); cbn [cond_Zopp]; lia.
Qed.

Lemma SFadd_dyadic (q a b : Z) :
  0 <= q <= 1022 -> Z.abs a + Z.abs b < 2 ^ 53 ->
  SFadd prec emax (SFdyadic q a) (SFdyadic q b) = SFdyadic q (a + b).
Proof.
  intros Hq Hab.
  destruct (Z.eq_dec a 0) as [->|Ha]; [|destruct (Z.eq_dec b 0) as [->|Hb]].
  - destruct (Z.eq_dec b 0) as [->|Hb]; [reflexivity|].
    rewrite Z.add_0_l. rewrite (SFdyadic_shape q b) by lia. reflexivity.
  - rewrite Z.add_0_r. rewrite (SFdyadic_shape q a) by lia. reflexivity.
  - pose proof (SFdyadic_shape q a ltac:(lia) ltac:(lia)) as Sa.
    pose proof (SFdyadic_shape q b ltac:(lia) ltac:(lia)) as Sb.
    destruct (SFdyadic q a) as [| | |sa ma ea] eqn:Ea; try discriminate Sa.
    destruct (SFdyadic q b) as [| | |sb mb eb] eqn:Eb; try discriminate Sb.
    clear Sa Sb. cbn [SFadd]. cbv zeta.
    change (IntDef.Z.min ea eb) with (Z.min ea eb).
    destruct (SFdyadic_aligned q a ma ea (Z.min ea eb) sa) as [Hea ->];
      [lia|lia|exact Ea|lia|].
    destruct (SFdyadic_aligned q b mb eb (Z.min ea eb) sb) as [Heb ->];
      [lia|lia|exact Eb|lia|].
    rewrite <- Z.mul_add_distr_r.
    replace (Z.min ea eb) with (- q - (- q - Z.min ea eb)) at 2 by lia.
    apply binary_normalize_whole; lia.
Qed.

Lemma SFsub_dyadic (q a b : Z) :
  0 <= q <= 1022 -> Z.abs a + Z.abs b < 2 ^ 53 ->
  SFsub prec emax (SFdyadic q a) (SFdyadic q b) = SFdyadic q (a - b).
Proof.
  intros Hq Hab.
  destruct (Z.eq_dec b 0) as [->|Hb]; [|destruct (Z.eq_dec a 0) as [->|Ha]].
  - rewrite Z.sub_0_r.
    destruct (Z.eq_dec a 0) as [->|Ha]; [reflexivity|].
    rewrite (SFdyadic_shape q a) by lia. reflexivity.
  - rewrite Z.sub_0_l.
    rewrite (SFdyadic_shape q b), (SFdyadic_shape q (- b)) by lia.
    change (SFdyadic q 0) with (S754_zero false). cbn [SFsub].
    rewrite Z.abs_opp. f_equal.
    destruct (Z.ltb_spec b 0), (Z.ltb_spec (- b) 0); try reflexivity; lia.
  - pose proof (SFdyadic_shape q a ltac:(lia) ltac:(lia)) as Sa.
    pose proof (SFdyadic_shape q b ltac:(lia) ltac:(lia)) as Sb.
    destruct (SFdyadic q a) as [| | |sa ma ea] eqn:Ea; try discriminate Sa.
    destruct (SFdyadic q b) as [| | |sb mb eb] eqn:Eb; try discriminate Sb.
    clear Sa Sb. cbn [SFsub]. cbv zeta.
    change (IntDef.Z.min ea eb) with (Z.min ea eb).
    destruct (SFdyadic_aligned q a ma ea (Z.min ea eb) sa) as [Hea ->];
      [lia|lia|exact Ea|lia|].
    destruct (SFdyadic_aligned q b mb eb (Z.min ea eb) sb) as [Heb ->];
      [lia|lia|exact Eb|lia|].
    rewrite <- Z.mul_sub_distr_r.
    replace (Z.min ea eb) with (- q - (- q - Z.min ea eb)) at 2 by lia.
    apply binary_normalize_whole; lia.
Qed.
End Exactness.

Section ExactSums.
Local Open Scope Z_scope.

Lemma units_zero (q : Z) : units q 0%float 0.
Proof. reflexivity. Qed.

Lemma float_add_units (q : Z) (x y : float) (a b : Z) :
  0 <= q <= 1022 -> units q x a -> units q y b ->
  Z.abs a + Z.abs b < 2 ^ 53 ->
  units q (x + y)%float (a + b).
Proof.
  unfold units. intros Hq Hx Hy Hab. rewrite add_spec, Hx, Hy.
  by apply SFadd_dyadic.
Qed.

Lemma float_sub_units (q : Z) (x y : float) (a b : Z) :
  0 <= q <= 1022 -> units q x a -> units q y b ->
  Z.abs a + Z.abs b < 2 ^ 53 ->
  units q (x - y)%float (a - b).
Proof.
  unfold units. intros Hq Hx Hy Hab. rewrite sub_spec, Hx, Hy.
  by apply SFsub_dyadic.
Qed.

Lemma sum_abs_nonneg (zs : list Z) : 0 <= sum_abs zs.
Proof. induction zs as [|z zs IH]; unfold sum_abs in *; cbn [fold_right]; lia. Qed.

Lemma fold_units (q : Z) (l : list (@term float)) (zs : list Z) :
  0 <= q <= 1022 -> Forall2 (term_units q) l zs ->
  forall (acc : float) (a : Z),
    units q acc a -> Z.abs a + sum_abs zs < 2 ^ 53 ->
    units q (fold_left apply_term l acc) (a + fold_right Z.add 0 zs).
Proof.
  intros Hq. induction 1 as [|tm z l zs Htm _ IH]; intros acc a Ha Hb.
  - cbn [fold_left fold_right]. by rewrite Z.add_0_r.
  - change (sum_abs (z :: zs)) with (Z.abs z + sum_abs zs) in Hb.
    pose proof (sum_abs_nonneg zs) as Hn.
    cbn [fold_left fold_right].
    replace (a + (z + fold_right Z.add 0 zs))
      with (a + z + fold_right Z.add 0 zs) by lia.
    apply IH; [|lia].
    destruct tm as [x|x]; cbn [term_units apply_term num_add num_sub
                                float_arith] in *.
    + apply float_add_units; [done..|lia].
    + replace (a + z) with (a - - z) by lia.
      apply float_sub_units; [done..|lia].
Qed.

Lemma sum_abs_perm (zs zs' : list Z) :
  Permutation zs zs' ->
  sum_abs zs = sum_abs zs'
  /\ fold_right Z.add 0 zs = fold_right Z.add 0 zs'.
Proof.
  induction 1 as [|z zs zs' _ IH|y z zs|zs1 zs2 zs3 _ IH1 _ IH2];
    unfold sum_abs in *; cbn [fold_right] in *; lia.
Qed.

(** A sum of exact amounts does not depend on the order of its terms. *)
Lemma signed_sum_perm (q : Z) (l l' : list (@term float)) :
  exact_amounts q l -> Permutation l l' -> signed_sum l = signed_sum l'.
Proof.
  intros (Hq & zs & Hzs & Hb) Hp.
  destruct (Permutation_Forall2 Hp Hzs) as (zs' & Hpz & Hzs').
  destruct (sum_abs_perm zs zs' Hpz) as [Ea Es].
  apply Prim2SF_inj.
  pose proof (fold_units q l zs Hq Hzs 0%float 0 (units_zero q)
                ltac:(cbn [Z.abs]; lia)) as H1.
  pose proof (fold_units q l' zs' Hq Hzs' 0%float 0 (units_zero q)
                ltac:(cbn [Z.abs]; lia)) as H2.
  unfold units, signed_sum in *. cbn [num_zero float_arith].
  rewrite H1, H2. by rewrite Es.
Qed.

(** C3, amended.  When the amounts that reach each balance are whole
    numbers of a common unit [2^-q] (whole dollars and dinars for [q = 0],
    quarters for [q = 2]) and their magnitudes add up to less than [2^53]
    units, no addition or subtraction of the fold rounds, and for every
    permutation of the ledger the bank, PayPal and cash balances are the
    same binary64 numbers. *)
Theorem balances_permutation_exact (q : Z) (st : @app float)
    (ts ts' : list (@Transaction float)) :
  Permutation ts ts' ->
  exact_amounts q (flat_map bank_terms ts) ->
  exact_amounts q (flat_map paypal_terms ts) ->
  exact_amounts q (flat_map cash_terms ts) ->
  exists s s',
    calculate_stats (set_transactions (map encode ts) st) = Ok s
    /\ calculate_stats (set_transactions (map encode ts') st) = Ok s'
    /\ usd_savings s = usd_savings s'
    /\ paypal_balance s = paypal_balance s'
    /\ dzd_cash s = dzd_cash s'.
Proof.
  intros Hp Hb Hpp Hc.
  destruct (stats_loop_encode (get_monthly_key st) ts stats0)
    as (s & Hs & H1 & H2 & H3 & _).
  destruct (stats_loop_encode (get_monthly_key st) ts' stats0)
    as (s' & Hs' & G1 & G2 & G3 & _).
  exists s, s'. split; [exact Hs|]. split; [exact Hs'|].
  rewrite H1, H2, H3, G1, G2, G3.
  repeat split.
  - apply (signed_sum_perm q); [exact Hb|]. by apply Permutation_flat_map.
  - apply (signed_sum_perm q); [exact Hpp|]. by apply Permutation_flat_map.
  - apply (signed_sum_perm q); [exact Hc|]. by apply Permutation_flat_map.
Qed.
End ExactSums.

(** * The theorems at concrete inputs *)

Lemma guard_accepts_iff_covered_witness :
  is_nan 5000%float = false
  /\ is_nan (dzd_cash (set_dzd_cash 5000%float stats0)) = false
  /\ (insufficient_expense "DZD" (set_dzd_cash 5000%float stats0) 5000%float
      = false
      <-> (5000 <=? dzd_cash (set_dzd_cash 5000%float stats0))%float = true).
Proof.
  split; [reflexivity|]. split; [reflexivity|].
  exact (proj1 (proj2 (proj2
           (proj1 guard_accepts_iff_covered
              (set_dzd_cash 5000%float stats0) 5000%float
              eq_refl eq_refl eq_refl eq_refl)))).
Defined.

Lemma balances_permutation_exact_witness :
  Permutation float_quarters float_quarters_reversed
  /\ exact_amounts 2 (flat_map bank_terms float_quarters)
  /\ exact_amounts 2 (flat_map paypal_terms float_quarters)
  /\ exact_amounts 2 (flat_map cash_terms float_quarters)
  /\ exists s s',
       calculate_stats (set_transactions (map encode float_quarters)
                          float_app0) = Ok s
       /\ calculate_stats (set_transactions
                             (map encode float_quarters_reversed)
                             float_app0) = Ok s'
       /\ usd_savings s = usd_savings s'
       /\ paypal_balance s = paypal_balance s'
       /\ dzd_cash s = dzd_cash s'.
Proof.
  assert (Permutation float_quarters float_quarters_reversed) as H
    by apply Permutation_rev.
  assert (exact_amounts 2 (flat_map bank_terms float_quarters)) as H1.
  { split; [lia|]. exists [1; 2; 3]%Z.
    split; [repeat constructor|reflexivity]. }
  assert (exact_amounts 2 (flat_map paypal_terms float_quarters)) as H2.
  { split; [lia|]. exists []. split; [constructor|reflexivity]. }
  assert (exact_amounts 2 (flat_map cash_terms float_quarters)) as H3.
  { split; [lia|]. exists []. split; [constructor|reflexivity]. }
  split; [exact H|]. split; [exact H1|]. split; [exact H2|].
  split; [exact H3|].
  exact (balances_permutation_exact 2 float_app0 _ _ H H1 H2 H3).
Defined.

Lemma month_totals_by_calendar_month_witness :
  Forall (fun t => valid_date (txn_date t)) float_three_months
  /\ (1 <= selected_month float_app0 <= 12)%Z
  /\ exists s,
       calculate_stats
         (set_transactions (map encode float_three_months) float_app0) = Ok s
       /\ month_earned s = 10%float
       /\ month_spent_usd s = 0%float
       /\ month_spent_dzd s = 0%float.
Proof.
  assert (Forall (fun t => valid_date (txn_date t)) float_three_months) as H1.
  { repeat constructor; cbn; lia. }
  assert (1 <= selected_month float_app0 <= 12)%Z as H2 by (cbn; lia).
  split; [exact H1|]. split; [exact H2|].
  exact (proj1 month_totals_by_calendar_month
           float_app0 float_three_months H1 H2).
Defined.

Lemma accepted_amounts_nonneg_witness :
  nonneg_inputs (PressAddIncome (Some 1000%float) None "Upwork (10%)"
                   "job" "off")
  /\ transactions
       (fst (run (PressAddIncome (Some 1000%float) None "Upwork (10%)"
                    "job" "off") "id" some_day true float_app0))
     = transactions float_app0
       ++ [income_dict "id" "2024-03-31" "job" 1000%float 100%float
             900%float false]
  /\ (0 <=? 900)%float = true.
Proof.
  assert (nonneg_inputs (PressAddIncome (Some 1000%float) None
                           "Upwork (10%)" "job" "off")) as H1.
  { repeat split. }
  split; [exact H1|]. split; [reflexivity|].
  exact (accepted_amounts_nonneg _ "id" some_day true float_app0
           (income_dict "id" "2024-03-31" "job" 1000%float 100%float
              900%float false)
           H1 eq_refl "net_amount" _ eq_refl).
Defined.

Lemma total_nw_total_witness :
  (0 <? 200)%float = true
  /\ total_nw (set_dzd_cash 100000%float stats0) 200%float
     = Ok (0 + 0 + 100000 / 200)%float.
Proof.
  split; [reflexivity|].
  exact (proj1 (proj2 (total_nw_total (set_dzd_cash 100000%float stats0)
                         200%float)) eq_refl).
Defined.

Lemma append_then_delete_restores_witness :
  income_dict "id" "2024-03-31" "job" 10%float 0%float 10%float false !! "id"
  = Some (VStr "id")
  /\ Forall (fun t' : gmap string (@value float) =>
               t' !! "id" <> Some (VStr "id")) (transactions float_app0)
  /\ transactions
       (delete_transaction "id" true
          (fst (add_transaction_to_db
                  (income_dict "id" "2024-03-31" "job" 10%float 0%float
                     10%float false) true float_app0)))
     = transactions float_app0.
Proof.
  assert (Forall (fun t' : gmap string (@value float) =>
                    t' !! "id" <> Some (VStr "id"))
            (transactions float_app0)) as H2 by constructor.
  split; [reflexivity|]. split; [exact H2|].
  exact (proj1 (append_then_delete_restores float_app0
                  (income_dict "id" "2024-03-31" "job" 10%float 0%float
                     10%float false) "id" true eq_refl H2)).
Defined.

Lemma delete_transaction_removes_exactly_witness :
  Forall (fun t : gmap string (@value float) =>
            t !! "id" <> Some (VStr "zzz")) (transactions float_app_123)
  /\ transactions (delete_transaction "zzz" true float_app_123)
     = transactions float_app_123.
Proof.
  assert (Forall (fun t : gmap string (@value float) =>
                    t !! "id" <> Some (VStr "zzz"))
            (transactions float_app_123)) as H.
  { repeat constructor; vm_compute; discriminate. }
  split; [exact H|].
  exact (proj1 (proj2 (proj2
           (delete_transaction_removes_exactly "zzz" float_app_123)) H)).
Defined.

(** * Month navigation *)

Section Navigation.
Context {num : Type} {A : Arith num}.

(** X1.  With a month between 1 and 12 selected, a press on ">" selects the
    next calendar month and a press on "<" the previous one, across the
    turn of the year; the month stays between 1 and 12 and the ledger and
    the display rate are untouched. *)
Theorem change_month_one_step (direction : Z) (st : @app num) :
  (1 <= selected_month st <= 12)%Z ->
  let st' := change_month direction st in
  month_index st' = (month_index st + (if (direction =? 1)%Z then 1 else -1))%Z
  /\ (1 <= selected_month st' <= 12)%Z
  /\ transactions st' = transactions st
  /\ display_rate st' = display_rate st.
Proof.
  intros Hm. cbv zeta. unfold change_month, month_index.
  destruct (direction =? 1)%Z;
    [destruct (Z.eqb_spec (selected_month st) 12)
    |destruct (Z.eqb_spec (selected_month st) 1)];
    cbn [set_selected selected_year selected_month transactions display_rate];
    repeat split; lia.
Qed.

(** X2.  With a month between 1 and 12 selected, ">" followed by "<" and
    "<" followed by ">" give back the state. *)
Theorem change_month_round_trip (st : @app num) :
  (1 <= selected_month st <= 12)%Z ->
  change_month (-1) (change_month 1 st) = st
  /\ change_month 1 (change_month (-1) st) = st.
Proof.
  intros Hm. destruct st as [l r y m]. cbn [selected_month] in Hm.
  unfold change_month, set_selected.
  cbn [Z.eqb selected_month selected_year transactions display_rate].
  split.
  - destruct (Z.eqb_spec m 12) as [->|Hne]; cbn.
    + f_equal; lia.
    + destruct (Z.eqb_spec (m + 1) 1); [exfalso; lia|]. f_equal; lia.
  - destruct (Z.eqb_spec m 1) as [->|Hne]; cbn.
    + f_equal; lia.
    + destruct (Z.eqb_spec (m - 1) 12); [exfalso; lia|]. f_equal; lia.
Qed.

Lemma append_inv_head (a s t : string) : a +:+ s = a +:+ t -> s = t.
Proof.
  induction a as [|c a IH]; [done|]. rewrite !append_cons. intros [= H]. auto.
Qed.

Lemma prefix_refl (s : string) : String.prefix s s = true.
Proof. rewrite <- (append_nil_r s) at 2. apply prefix_app_l. Qed.

Lemma numeral_dash_inj (a a' r r' : string) :
  no_dash a -> no_dash a' ->
  a +:+ String "-" r = a' +:+ String "-" r' -> a = a' /\ r = r'.
Proof.
  intros Ha Ha' E.
  assert (a = a') as ->.
  { apply (prefix_dash_split a a' r r' Ha Ha'). rewrite E. apply prefix_refl. }
  split; [done|]. apply append_inv_head in E. by injection E.
Qed.

(** X3.  For months between 1 and 12 the month key determines the selected
    year and month: two selections with the same key are the same month. *)
Theorem get_monthly_key_inj (st st' : @app num) :
  (1 <= selected_month st <= 12)%Z ->
  (1 <= selected_month st' <= 12)%Z ->
  get_monthly_key st = get_monthly_key st' ->
  selected_year st = selected_year st'
  /\ selected_month st = selected_month st'.
Proof.
  unfold get_monthly_key. intros Hm Hm'.
  generalize (selected_year st), (selected_year st'). intros y y'.
  change ("-" +:+ ?s) with (String "-" s).
  destruct y as [|p|p], y' as [|p'|p'];
    try (intros E; apply numeral_dash_inj in E as [E1 E2];
         [ apply (inj pretty) in E1; split; [exact E1|];
           by apply format_02d_inj
         | apply pretty_nonneg_no_dash; lia
         | apply pretty_nonneg_no_dash; lia ]).
  - (* 0 against a negative year *)
    change (pretty (Z.neg p')) with ("-" +:+ pretty p').
    change ("-" +:+ ?s) with (String "-" s). 
    change (pretty 0%Z) with "0". rewrite !append_cons. discriminate.
  - (* a positive against a negative year *)
    change (pretty (Z.neg p')) with ("-" +:+ pretty p').
    change ("-" +:+ ?s) with (String "-" s).
    destruct (pretty_pos_digits p) as [Hnd Hne].
    destruct (pretty (Z.pos p)) as [|c s]; [done|].
    rewrite !append_cons. destruct Hnd as [Hc _]. intros [= H _]. congruence.
  - change (pretty (Z.neg p)) with ("-" +:+ pretty p).
    change ("-" +:+ ?s) with (String "-" s).
    change (pretty 0%Z) with "0". rewrite !append_cons. discriminate.
  - change (pretty (Z.neg p)) with ("-" +:+ pretty p).
    change ("-" +:+ ?s) with (String "-" s).
    destruct (pretty_pos_digits p') as [Hnd Hne].
    destruct (pretty (Z.pos p')) as [|c s]; [done|].
    rewrite !append_cons. destruct Hnd as [Hc _]. intros [= H _]. congruence.
  - (* two negative years *)
    change (pretty (Z.neg p)) with ("-" +:+ pretty (Z.pos p)).
    change (pretty (Z.neg p')) with ("-" +:+ pretty (Z.pos p')).
    change ("-" +:+ ?s) with (String "-" s).
    rewrite !append_cons. intros [= E].
    apply numeral_dash_inj in E as [E1 E2];
      [|apply pretty_nonneg_no_dash; lia..].
    apply (inj pretty) in E1. split; [congruence|].
    by apply format_02d_inj.
Qed.
End Navigation.

(** * What the actions do to the state *)

Section Actions.
Context {num : Type} {A : Arith num}.
Local Open Scope num_scope.

Lemma stats_loop_app key (l l' : list (gmap string (@value num))) : forall s,
  stats_loop key s (l ++ l')
  = (s' ← stats_loop key s l; stats_loop key s' l').
Proof.
  induction l as [|t l IH]; intros s; [reflexivity|].
  cbn [List.app stats_loop].
  destruct (balance_update s t) as [s1|e]; [|reflexivity].
  cbn [mbind result_bind].
  destruct (month_update key s1 t) as [s2|e]; [|reflexivity].
  cbn [mbind result_bind]. apply IH.
Qed.

(** X4.  An action either shows an "Error" dialog and leaves the state as
    it was, or appends exactly one transaction, which carries the fresh id
    and the date of the day; then "Success" is shown when the database
    block ran to its end, and otherwise a "Database Error" whose message
    is "Failed to save:", a line break and the text of the exception. *)
Theorem run_outcomes (a : @action num) (uuid4 : string) (now : date)
    (saved : bool) (st : @app num) :
  (fst (run a uuid4 now saved st) = st
   /\ exists msg, snd (run a uuid4 now saved st) = ShowError "Error" msg)
  \/ (exists t msg,
        fst (run a uuid4 now saved st)
        = set_transactions (transactions st ++ [t]) st
        /\ t !! "id" = Some (VStr uuid4)
        /\ t !! "date" = Some (VStr (strftime_Ymd now))
        /\ snd (run a uuid4 now saved st)
           = if saved then ShowInfo "Success" msg
             else ShowErrorWith "Database Error" failed_to_save).
Proof.
  destruct a as [[g|] fee_val fee_type name chk|[amt|] method
                |[usd|] [rate|]|[amt|] curr cat desc];
    cbn [run]; try (left; split; [reflexivity|eexists; reflexivity]).
  - unfold add_income. cbn [float_entry mbind result_bind].
    destruct (contains "Manual" fee_type).
    + destruct fee_val as [f|];
        [|left; split; [reflexivity|eexists; reflexivity]].
      right. do 2 eexists. repeat split.
    + right. do 2 eexists. repeat split.
  - unfold transfer_paypal_to_bank. cbn [float_entry mbind result_bind].
    destruct (calculate_stats st) as [s|e];
      [|left; split; [reflexivity|eexists; reflexivity]].
    cbn [mbind result_bind]. destruct (insufficient_paypal s amt);
      [left; split; [reflexivity|eexists; reflexivity]|].
    right. do 2 eexists. repeat split.
  - unfold transfer_usd_to_dzd. cbn [float_entry mbind result_bind].
    destruct (calculate_stats st) as [s|e];
      [|left; split; [reflexivity|eexists; reflexivity]].
    cbn [mbind result_bind]. destruct (insufficient_usd s usd);
      [left; split; [reflexivity|eexists; reflexivity]|].
    right. do 2 eexists. repeat split.
  - unfold add_expense. cbn [float_entry mbind result_bind].
    destruct (calculate_stats st) as [s|e];
      [|left; split; [reflexivity|eexists; reflexivity]].
    cbn [mbind result_bind]. destruct (insufficient_expense _ s amt);
      [left; split; [reflexivity|eexists; reflexivity]|].
    right. do 2 eexists. repeat split.
Qed.

(** X5.  A transaction without a "type" entry, anywhere after transactions
    of the data model, makes [calculate_stats] raise [KeyError]; every
    transfer and every expense is then answered by "Invalid Input" and
    nothing is appended. *)
Theorem missing_type_blocks_guarded_actions (st : @app num)
    (ts : list (@Transaction num)) (t : gmap string (@value num))
    (l : list (gmap string (@value num))) :
  transactions st = map encode ts ++ t :: l ->
  t !! "type" = None ->
  calculate_stats st = Raise KeyError
  /\ forall (a : @action num) uuid4 now saved,
       match a with PressAddIncome _ _ _ _ _ => False | _ => True end ->
       run a uuid4 now saved st = (st, ShowError "Error" "Invalid Input").
Proof.
  intros Hl Ht.
  assert (calculate_stats st = Raise KeyError) as Hs.
  { unfold calculate_stats. rewrite Hl, stats_loop_app.
    destruct (stats_loop_encode (get_monthly_key st) ts stats0)
      as (s & -> & _).
    cbn [mbind result_bind stats_loop]. unfold balance_update, getitem.
    by rewrite Ht. }
  split; [exact Hs|].
  intros [? ? ? ? ?|[amt|] method|[usd|] [rate|]|[amt|] curr cat desc]
    uuid4 now saved Ha; try done; cbn [run].
  - unfold transfer_paypal_to_bank. cbn [float_entry mbind result_bind].
    by rewrite Hs.
  - unfold transfer_usd_to_dzd. cbn [float_entry mbind result_bind].
    by rewrite Hs.
  - unfold add_expense. cbn [float_entry mbind result_bind].
    by rewrite Hs.
Qed.

(** X6.  A transaction whose "type" is none of the four kinds and whose
    "date" is a string adds nothing: the balances and the monthly totals
    are those of the ledger without it, wherever it stands. *)
Theorem unknown_kind_is_skipped (st : @app num)
    (l1 l2 : list (gmap string (@value num))) (t : gmap string (@value num))
    (ty : @value num) (d : string) :
  t !! "type" = Some ty ->
  eq_str ty "income" = false -> eq_str ty "expense" = false ->
  eq_str ty "transfer_usd_dzd" = false ->
  eq_str ty "transfer_paypal_bank" = false ->
  t !! "date" = Some (VStr d) ->
  calculate_stats (set_transactions (l1 ++ t :: l2) st)
  = calculate_stats (set_transactions (l1 ++ l2) st).
Proof.
  intros Ht H1 H2 H3 H4 Hd. unfold calculate_stats.
  change (get_monthly_key (set_transactions ?l st))
    with (get_monthly_key st).
  cbn [transactions set_transactions]. rewrite !stats_loop_app.
  destruct (stats_loop (get_monthly_key st) stats0 l1) as [s|e];
    [|reflexivity].
  cbn [mbind result_bind stats_loop].
  assert (balance_update s t = Ok s) as ->.
  { unfold balance_update, getitem. rewrite Ht. cbn [mbind result_bind].
    by rewrite H1, H2, H3, H4. }
  cbn [mbind result_bind].
  assert (month_update (get_monthly_key st) s t = Ok s) as ->.
  { unfold month_update, getitem. rewrite Hd, Ht.
    cbn [mbind result_bind startswith].
    destruct (String.prefix _ d); [|reflexivity].
    cbn [mbind result_bind]. by rewrite H1, H2. }
  reflexivity.
Qed.

(** X7.  The display rate takes no part in the ledger: changing it changes
    no balance and no monthly total, and an action does to the state with
    the new rate what it does to the state with the old one. *)
Theorem display_rate_is_display_only (r : num) (st : @app num) :
  calculate_stats (set_display_rate r st) = calculate_stats st
  /\ forall (a : @action num) uuid4 now saved,
       run a uuid4 now saved (set_display_rate r st)
       = (set_display_rate r (fst (run a uuid4 now saved st)),
          snd (run a uuid4 now saved st)).
Proof.
  split; [reflexivity|].
  intros [[g|] fee_val fee_type name chk|[amt|] method
         |[usd|] [rate|]|[amt|] curr cat desc] uuid4 now saved;
    cbn [run]; try reflexivity.
  - unfold add_income. cbn [float_entry mbind result_bind].
    destruct (contains "Manual" fee_type); [destruct fee_val|]; reflexivity.
  - unfold transfer_paypal_to_bank. cbn [float_entry mbind result_bind].
    change (calculate_stats (set_display_rate r st))
      with (calculate_stats st).
    destruct (calculate_stats st) as [s|e]; [|reflexivity].
    cbn [mbind result_bind]. by destruct (insufficient_paypal s amt).
  - unfold transfer_usd_to_dzd. cbn [float_entry mbind result_bind].
    change (calculate_stats (set_display_rate r st))
      with (calculate_stats st).
    destruct (calculate_stats st) as [s|e]; [|reflexivity].
    cbn [mbind result_bind]. by destruct (insufficient_usd s usd).
  - unfold add_expense. cbn [float_entry mbind result_bind].
    change (calculate_stats (set_display_rate r st))
      with (calculate_stats st).
    destruct (calculate_stats st) as [s|e]; [|reflexivity].
    cbn [mbind result_bind]. by destruct (insufficient_expense _ s amt).
Qed.

End Actions.

(** * What an accepted action does to the figures *)

Section Effects.
Context {num : Type} {A : Arith num}.
Local Open Scope num_scope.

Lemma calculate_stats_append (st : @app num) (t : gmap string (@value num))
    (s : stats) :
  calculate_stats st = Ok s ->
  calculate_stats (set_transactions (transactions st ++ [t]) st)
  = (s1 ← balance_update s t; month_update (get_monthly_key st) s1 t).
Proof.
  unfold calculate_stats. intros Hs.
  change (get_monthly_key (set_transactions ?l st))
    with (get_monthly_key st).
  cbn [transactions set_transactions]. rewrite stats_loop_app, Hs.
  cbn [mbind result_bind stats_loop].
  destruct (balance_update s t) as [s1|e]; [|reflexivity].
  cbn [mbind result_bind].
  by destruct (month_update (get_monthly_key st) s1 t).
Qed.

(** X8.  An accepted sale of dollars lowers the bank balance by the dollars
    sold and raises the cash balance by dollars times rate; an accepted
    PayPal transfer lowers the PayPal balance by the amount sent and raises
    the bank balance by that amount less the fee (5 with the manual
    method, 0 otherwise).  Nothing else changes, the monthly totals
    included. *)
Theorem accepted_transfers_move_money (st : @app num) (s : stats)
    (uuid4 : string) (now : date) (saved : bool) :
  calculate_stats st = Ok s ->
  (forall usd rate,
     insufficient_usd s usd = false ->
     calculate_stats
       (fst (transfer_usd_to_dzd (Some usd) (Some rate) uuid4 now saved st))
     = Ok (set_dzd_cash (dzd_cash s + usd * rate)
             (set_usd_savings (usd_savings s - usd) s)))
  /\ (forall amt method,
        insufficient_paypal s amt = false ->
        calculate_stats
          (fst (transfer_paypal_to_bank (Some amt) method uuid4 now saved st))
        = Ok (set_usd_savings
                (usd_savings s
                 + (amt - (if contains "Manual" method then num_five
                           else num_zero)))
                (set_paypal_balance (paypal_balance s - amt) s))).
Proof.
  intros Hs. split.
  - intros usd rate Hg. unfold transfer_usd_to_dzd.
    cbn [float_entry mbind result_bind]. rewrite Hs.
    cbn [mbind result_bind]. rewrite Hg.
    cbn [try_except add_transaction_to_db fst].
    rewrite (calculate_stats_append st _ s Hs), balance_update_usd_dzd.
    cbn [mbind result_bind]. apply month_update_usd_dzd.
  - intros amt method Hg. unfold transfer_paypal_to_bank.
    cbn [float_entry mbind result_bind]. rewrite Hs.
    cbn [mbind result_bind]. rewrite Hg.
    cbn [try_except add_transaction_to_db fst].
    rewrite (calculate_stats_append st _ s Hs), balance_update_paypal_bank.
    cbn [mbind result_bind]. apply month_update_paypal_bank.
Qed.

(** X9.  An income added on a calendar day raises the PayPal balance (box
    ticked) or the bank balance (box not ticked) by the net amount, and
    raises the income of the selected month by the same amount exactly
    when that day lies in the selected month. *)
Theorem add_income_updates_stats (st : @app num) (s : stats) (g f : num)
    (fee_type name chk uuid4 : string) (now : date) (saved : bool) :
  calculate_stats st = Ok s ->
  valid_date now ->
  (1 <= selected_month st <= 12)%Z ->
  let fee := if contains "Manual" fee_type then f
             else if contains "Upwork" fee_type then g * num_tenth
                  else num_zero in
  let s1 := if String.eqb chk "on"
            then set_paypal_balance (paypal_balance s + (g - fee)) s
            else set_usd_savings (usd_savings s + (g - fee)) s in
  calculate_stats
    (fst (add_income (Some g) (Some f) fee_type name chk uuid4 now saved st))
  = Ok (if in_month (selected_year st) (selected_month st) now
        then set_month_earned (month_earned s + (g - fee)) s1
        else s1).
Proof.
  intros Hs Hnow Hm. cbv zeta. unfold add_income.
  cbn [float_entry mbind result_bind].
  assert ((if contains "Manual" fee_type then Ok f
           else Ok (if contains "Upwork" fee_type then g * num_tenth
                    else num_zero))
          = Ok (if contains "Manual" fee_type then f
                else if contains "Upwork" fee_type then g * num_tenth
                     else num_zero)) as ->
    by (by destruct (contains "Manual" fee_type)).
  cbn [mbind result_bind try_except add_transaction_to_db fst].
  rewrite (calculate_stats_append st _ s Hs), balance_update_income.
  cbn [mbind result_bind]. rewrite month_update_income.
  unfold get_monthly_key. rewrite (startswith_key_in_month _ _ _ Hnow Hm).
  by destruct (String.eqb chk "on").
Qed.

(** X10.  An accepted expense recorded on a calendar day lowers the bank
    balance (USD) or the cash balance (DZD) by its amount, and raises the
    USD or DZD spending of the selected month by the same amount exactly
    when that day lies in the selected month. *)
Theorem add_expense_updates_stats (st : @app num) (s : stats) (amt : num)
    (combo cat desc uuid4 : string) (now : date) (saved : bool) :
  calculate_stats st = Ok s ->
  valid_date now ->
  (1 <= selected_month st <= 12)%Z ->
  let usd := contains "USD" combo in
  insufficient_expense (if usd then "USD" else "DZD") s amt = false ->
  let s1 := if usd then set_usd_savings (usd_savings s - amt) s
            else set_dzd_cash (dzd_cash s - amt) s in
  calculate_stats
    (fst (add_expense (Some amt) combo cat desc uuid4 now saved st))
  = Ok (if in_month (selected_year st) (selected_month st) now
        then (if usd
              then set_month_spent_usd (month_spent_usd s + amt) s1
              else set_month_spent_dzd (month_spent_dzd s + amt) s1)
        else s1).
Proof.
  intros Hs Hnow Hm. cbv zeta. intros Hg. unfold add_expense.
  cbn [float_entry mbind result_bind]. rewrite Hs.
  cbn [mbind result_bind]. rewrite Hg.
  cbn [try_except add_transaction_to_db fst].
  rewrite (calculate_stats_append st _ s Hs).
  replace (if contains "USD" combo then "USD" else "DZD")
    with (currency_code (if contains "USD" combo then USD else DZD))
    by (by destruct (contains "USD" combo)).
  rewrite balance_update_expense. cbn [mbind result_bind].
  rewrite month_update_expense.
  unfold get_monthly_key. rewrite (startswith_key_in_month _ _ _ Hnow Hm).
  by destruct (contains "USD" combo).
Qed.

End Effects.

(** * The lists of the income, expense and transfer pages *)

Section Lists.
Context {num : Type} {A : Arith num}.
Local Open Scope num_scope.

Lemma create_list_row_modern_encode (t : @Transaction num) (simple : bool) :
  create_list_row_modern (encode t) simple = Ok (row_of simple t).
Proof.
  destruct t as [id on src g f n [|]|id on lbl a [|]|id on u r z|id on a f r];
    reflexivity.
Qed.

Lemma rows_where_encode (test : gmap string (@value num) -> result bool)
    (p : @Transaction num -> bool) (l : list (@Transaction num)) :
  (forall t, test (encode t) = Ok (p t)) ->
  rows_where test (map encode l) = Ok (map (row_of false) (List.filter p l)).
Proof.
  intros Hp. induction l as [|t l IH]; [reflexivity|].
  cbn [map rows_where List.filter]. rewrite Hp. cbn [mbind result_bind].
  destruct (p t); [|exact IH].
  rewrite create_list_row_modern_encode, IH. reflexivity.
Qed.

Lemma kind_in_month_income key (t : @Transaction num) :
  kind_in_month "income" key (encode t) = Ok (is_income t && dated key t).
Proof.
  destruct t as [id on src g f n b|id on lbl a cur|id on u r z|id on a f r];
    reflexivity.
Qed.

Lemma kind_in_month_expense key (t : @Transaction num) :
  kind_in_month "expense" key (encode t) = Ok (is_expense t && dated key t).
Proof.
  destruct t as [id on src g f n b|id on lbl a cur|id on u r z|id on a f r];
    reflexivity.
Qed.

Lemma is_transfer_encode (t : @Transaction num) :
  is_transfer (encode t) = Ok (is_transfer_kind t).
Proof.
  destruct t as [id on src g f n b|id on lbl a cur|id on u r z|id on a f r];
    reflexivity.
Qed.

Lemma filter_andb {X : Type} (p q : X -> bool) (l : list X) :
  List.filter (fun x => p x && q x) l = List.filter p (List.filter q l).
Proof.
  induction l as [|x l IH]; [reflexivity|]. cbn [List.filter].
  destruct (q x), (p x) eqn:E; cbn [List.filter andb]; rewrite ?E, IH; reflexivity.
Qed.

Lemma income_rows_terms (simple : bool) (l : list (@Transaction num)) :
  flat_map income_row_terms (map (row_of simple) (List.filter is_income l))
  = flat_map earned_terms l.
Proof.
  induction l as [|t l IH]; [reflexivity|].
  destruct t; cbn [List.filter is_income map flat_map earned_terms];
    rewrite ?IH; reflexivity.
Qed.

Lemma expense_rows_terms_usd (simple : bool) (l : list (@Transaction num)) :
  flat_map (expense_row_terms "$")
    (map (row_of simple) (List.filter is_expense l))
  = flat_map spent_usd_terms l.
Proof.
  induction l as [|t l IH]; [reflexivity|].
  destruct t as [| ? ? ? ? [|] | |];
    cbn [List.filter is_expense map flat_map spent_usd_terms];
    rewrite ?IH; reflexivity.
Qed.

Lemma expense_rows_terms_dzd (simple : bool) (l : list (@Transaction num)) :
  flat_map (expense_row_terms "DZD")
    (map (row_of simple) (List.filter is_expense l))
  = flat_map spent_dzd_terms l.
Proof.
  induction l as [|t l IH]; [reflexivity|].
  destruct t as [| ? ? ? ? [|] | |];
    cbn [List.filter is_expense map flat_map spent_dzd_terms];
    rewrite ?IH; reflexivity.
Qed.

Lemma rows_newest_first (p : @Transaction num -> bool) key
    (ts : list (@Transaction num)) :
  map (row_of false)
    (List.filter (fun t => p t && dated key t) (rev ts))
  = map (row_of false) (rev (List.filter p (List.filter (dated key) ts))).
Proof. by rewrite filter_rev, filter_andb. Qed.

(** X11.  On a ledger of calendar dates, the income page lists exactly the
    incomes dated in the selected month, the newest entry of the ledger
    first and each with its delete button, and the amounts on the rows,
    added in ledger order, are the month's earned total that
    [calculate_stats] reports. *)
Theorem income_list_matches_month_earned (st : app)
    (ts : list (@Transaction num)) :
  Forall (fun t => valid_date (txn_date t)) ts ->
  (1 <= selected_month st <= 12)%Z ->
  let st' := set_transactions (map encode ts) st in
  let shown :=
    List.filter is_income (of_month (selected_year st) (selected_month st) ts) in
  update_income_list st' = Ok (map (row_of false) (rev shown))
  /\ exists s,
       calculate_stats st' = Ok s
       /\ month_earned s
          = signed_sum (flat_map income_row_terms (map (row_of false) shown)).
Proof.
  intros Hts HM st' shown. split.
  - unfold update_income_list, st'. cbn [set_transactions transactions].
    rewrite <- map_rev.
    rewrite (rows_where_encode _ _ _ (kind_in_month_income _)).
    rewrite rows_newest_first. unfold get_monthly_key.
    cbn [selected_year selected_month].
    by rewrite (filter_dated_of_month _ _ ts Hts HM).
  - destruct (stats_loop_encode (get_monthly_key st) ts stats0)
      as (s & Hs & _ & _ & _ & H4 & _).
    exists s. split; [exact Hs|].
    unfold shown. rewrite income_rows_terms, H4. unfold get_monthly_key.
    by rewrite (filter_dated_of_month _ _ ts Hts HM).
Qed.

(** X12.  On a ledger of calendar dates, the expense page lists exactly the
    expenses dated in the selected month, the newest entry of the ledger
    first and each with its delete button; the amounts on the rows marked
    "$" add up, in ledger order, to the month's dollar spending and those
    marked "DZD" to the month's dinar spending. *)
Theorem expense_list_matches_month_spent (st : app)
    (ts : list (@Transaction num)) :
  Forall (fun t => valid_date (txn_date t)) ts ->
  (1 <= selected_month st <= 12)%Z ->
  let st' := set_transactions (map encode ts) st in
  let shown :=
    List.filter is_expense (of_month (selected_year st) (selected_month st) ts) in
  update_expense_list st' = Ok (map (row_of false) (rev shown))
  /\ exists s,
       calculate_stats st' = Ok s
       /\ month_spent_usd s
          = signed_sum (flat_map (expense_row_terms "$")
                          (map (row_of false) shown))
       /\ month_spent_dzd s
          = signed_sum (flat_map (expense_row_terms "DZD")
                          (map (row_of false) shown)).
Proof.
  intros Hts HM st' shown. split.
  - unfold update_expense_list, st'. cbn [set_transactions transactions].
    rewrite <- map_rev.
    rewrite (rows_where_encode _ _ _ (kind_in_month_expense _)).
    rewrite rows_newest_first. unfold get_monthly_key.
    cbn [selected_year selected_month].
    by rewrite (filter_dated_of_month _ _ ts Hts HM).
  - destruct (stats_loop_encode (get_monthly_key st) ts stats0)
      as (s & Hs & _ & _ & _ & _ & H5 & H6).
    exists s. split; [exact Hs|].
    unfold shown. rewrite expense_rows_terms_usd, expense_rows_terms_dzd, H5, H6.
    unfold get_monthly_key.
    by rewrite (filter_dated_of_month _ _ ts Hts HM).
Qed.

Lemma month_terms_without_transfers (f : @Transaction num -> list (@term num))
    (p : @Transaction num -> bool) (ts : list (@Transaction num)) :
  (forall t, is_transfer_kind t = true -> f t = []) ->
  flat_map f (List.filter p
                (List.filter (fun t => negb (is_transfer_kind t)) ts))
  = flat_map f (List.filter p ts).
Proof.
  intros Hf. induction ts as [|t ts IH]; [reflexivity|].
  cbn [List.filter]. destruct (is_transfer_kind t) eqn:E; cbn [negb List.filter].
  - destruct (p t); [|exact IH]. cbn [flat_map]. by rewrite (Hf t E), IH.
  - destruct (p t); [|exact IH]. cbn [flat_map]. by rewrite IH.
Qed.

(** X13.  The transfer page lists every transfer of the ledger, of both
    kinds and of every month, the newest entry first: the selected month
    plays no part in it.  And no transfer is counted in a monthly total:
    the three totals of a ledger are those of the ledger without its
    transfers. *)
Theorem transfer_list_ignores_month (st : app) (ts : list (@Transaction num))
    (y m : Z) :
  let st' := set_transactions (map encode ts) st in
  let others := List.filter (fun t => negb (is_transfer_kind t)) ts in
  update_transfer_list (set_selected y m st')
  = Ok (map (row_of false) (rev (List.filter is_transfer_kind ts)))
  /\ exists s s',
       calculate_stats st' = Ok s
       /\ calculate_stats (set_transactions (map encode others) st) = Ok s'
       /\ month_earned s' = month_earned s
       /\ month_spent_usd s' = month_spent_usd s
       /\ month_spent_dzd s' = month_spent_dzd s.
Proof.
  intros st' others. split.
  - unfold update_transfer_list, st'.
    cbn [set_selected set_transactions transactions].
    rewrite <- map_rev, (rows_where_encode _ _ _ is_transfer_encode).
    by rewrite filter_rev.
  - destruct (stats_loop_encode (get_monthly_key st) ts stats0)
      as (s & Hs & _ & _ & _ & H4 & H5 & H6).
    destruct (stats_loop_encode (get_monthly_key st) others stats0)
      as (s' & Hs' & _ & _ & _ & G4 & G5 & G6).
    exists s, s'. split; [exact Hs|]. split; [exact Hs'|].
    rewrite H4, H5, H6, G4, G5, G6. unfold others.
    rewrite !month_terms_without_transfers; [done|..];
      by intros [] E; try discriminate E.
Qed.
End Lists.

(** * The recent activity of the dashboard *)

Section History.
Context {num : Type} {A : Arith num}.

Lemma ascii_compare_refl (c : ascii) : Ascii.compare c c = Eq.
Proof. unfold Ascii.compare. apply N.compare_refl. Qed.

Lemma string_compare_refl (a : string) : String.compare a a = Eq.
Proof.
  induction a as [|c a IH]; [reflexivity|].
  cbn [String.compare]. by rewrite ascii_compare_refl.
Qed.

Lemma string_leb_trans (a : string) : forall b c,
  String.leb a b = true -> String.leb b c = true -> String.leb a c = true.
Proof.
  unfold String.leb.
  induction a as [|x a IH]; intros [|y b] [|z c]; cbn [String.compare];
    try done.
  unfold Ascii.compare.
  destruct (N.compare_spec (N_of_ascii x) (N_of_ascii y)) as [E1|L1|G1];
    [|
     |done].
  - apply (f_equal ascii_of_N) in E1. rewrite !ascii_N_embedding in E1.
    subst y.
    destruct (N.compare_spec (N_of_ascii x) (N_of_ascii z)); try done.
    apply IH.
  - intros _.
    destruct (N.compare_spec (N_of_ascii y) (N_of_ascii z)) as [E2|L2|G2];
      [| |done].
    + rewrite <- E2. intros _.
      destruct (N.compare_spec (N_of_ascii x) (N_of_ascii y)); try done; lia.
    + intros _.
      destruct (N.compare_spec (N_of_ascii x) (N_of_ascii z)); try done; lia.
Qed.

Lemma string_ltb_false_leb (a b : string) :
  String.ltb a b = false -> String.leb b a = true.
Proof.
  unfold String.ltb, String.leb. rewrite (String.compare_antisym a b).
  by destruct (String.compare b a).
Qed.

Lemma string_ltb_leb (a b : string) :
  String.ltb a b = true -> String.leb a b = true.
Proof. unfold String.ltb, String.leb. by destruct (String.compare a b). Qed.

Lemma string_ltb_neq (a b : string) :
  String.ltb a b = true -> String.eqb a b = false.
Proof.
  unfold String.ltb. intros H. destruct (String.eqb_spec a b) as [->|]; [|done].
  by rewrite string_compare_refl in H.
Qed.

Lemma filter_none {X : Type} (p : X -> bool) (l : list X) :
  Forall (fun x => p x = false) l -> List.filter p l = [].
Proof.
  induction 1 as [|x l Hx _ IH]; [reflexivity|].
  cbn [List.filter]. by rewrite Hx.
Qed.

Section Sort.
Context {X : Type}.

Lemma insert_desc_perm k (x : X) l :
  Permutation (insert_desc k x l) ((k, x) :: l).
Proof.
  induction l as [|[k' x'] l IH]; [reflexivity|]. cbn [insert_desc].
  destruct (String.ltb k' k); [reflexivity|].
  rewrite IH. apply perm_swap.
Qed.

Lemma insert_desc_sorted k (x : X) l : desc l -> desc (insert_desc k x l).
Proof.
  unfold desc. induction 1 as [|[k' x'] l Hs IH Hall].
  - repeat constructor.
  - cbn [insert_desc]. destruct (String.ltb k' k) eqn:E.
    + constructor; [by constructor|]. constructor.
      * by apply string_ltb_leb.
      * eapply Forall_impl; [exact Hall|]. intros [k2 x2]. cbn [fst].
        intros H2. eapply string_leb_trans; [exact H2|].
        by apply string_ltb_leb.
    + constructor; [exact IH|].
      eapply Permutation_Forall; [symmetry; apply insert_desc_perm|].
      constructor; [|exact Hall]. by apply string_ltb_false_leb.
Qed.

(** Insertion puts the new element after those of the same key. *)
Lemma insert_desc_stable d k (x : X) l :
  desc l ->
  List.filter (fun p => String.eqb (fst p) d) (insert_desc k x l)
  = List.filter (fun p => String.eqb (fst p) d) l
    ++ List.filter (fun p => String.eqb (fst p) d) [(k, x)].
Proof.
  unfold desc. induction 1 as [|[k' x'] l Hs IH Hall].
  - reflexivity.
  - cbn [insert_desc]. destruct (String.ltb k' k) eqn:E.
    + cbn [List.filter fst]. destruct (String.eqb_spec k d) as [->|Hk].
      * rewrite (string_ltb_neq _ _ E).
        assert (List.filter (fun p : string * X => String.eqb (fst p) d) l = [])
          as ->; [|reflexivity].
        apply filter_none.
        eapply Forall_impl; [exact Hall|]. intros [k2 x2]. cbn [fst].
        intros H2.
        destruct (String.eqb_spec k2 d) as [->|]; [|done].
        exfalso. pose proof (String.leb_antisym _ _ H2 (string_ltb_leb _ _ E)).
        subst k'. apply string_ltb_neq in E. by rewrite String.eqb_refl in E.
      * by rewrite app_nil_r.
    + cbn [List.filter fst]. rewrite IH.
      by destruct (String.eqb k' d).
Qed.

Lemma sorted_desc_from (l : list (string * X)) : forall acc,
  desc acc ->
  let r := fold_left (fun acc p => insert_desc (fst p) (snd p) acc) l acc in
  desc r /\ Permutation r (acc ++ l)
  /\ forall d,
       List.filter (fun p => String.eqb (fst p) d) r
       = List.filter (fun p => String.eqb (fst p) d) (acc ++ l).
Proof.
  induction l as [|[k x] l IH]; intros acc Hacc; cbn zeta.
  - rewrite app_nil_r. by repeat split.
  - cbn [fold_left fst snd].
    destruct (IH (insert_desc k x acc) (insert_desc_sorted k x acc Hacc))
      as (H1 & H2 & H3).
    split; [exact H1|]. split.
    + rewrite H2, insert_desc_perm. apply Permutation_middle.
    + intros d. rewrite H3, !List.filter_app, (insert_desc_stable d k x acc Hacc).
      rewrite <- app_assoc. f_equal. cbn [List.filter fst].
      by destruct (String.eqb k d).
Qed.

Lemma sorted_desc_spec (l : list (string * X)) :
  desc (sorted_desc l) /\ Permutation (sorted_desc l) l
  /\ forall d,
       List.filter (fun p => String.eqb (fst p) d) (sorted_desc l)
       = List.filter (fun p => String.eqb (fst p) d) l.
Proof. apply (sorted_desc_from l []). constructor. Qed.
End Sort.

Lemma insert_desc_map {X Y : Type} (f : X -> Y) k x (l : list (string * X)) :
  insert_desc k (f x) (map (fun p => (fst p, f (snd p))) l)
  = map (fun p => (fst p, f (snd p))) (insert_desc k x l).
Proof.
  induction l as [|[k' x'] l IH]; [reflexivity|].
  cbn [map insert_desc fst snd]. destruct (String.ltb k' k); [reflexivity|].
  cbn [map fst snd]. by rewrite IH.
Qed.

Lemma sorted_desc_map {X Y : Type} (f : X -> Y) (l : list (string * X)) :
  sorted_desc (map (fun p => (fst p, f (snd p))) l)
  = map (fun p => (fst p, f (snd p))) (sorted_desc l).
Proof.
  unfold sorted_desc. change (@nil (string * Y))
    with (map (fun p : string * X => (fst p, f (snd p))) []).
  generalize (@nil (string * X)).
  induction l as [|[k x] l IH]; intros acc; [reflexivity|].
  cbn [map fold_left fst snd]. by rewrite insert_desc_map, IH.
Qed.

Lemma keyed_encode (ts : list (@Transaction num)) :
  mapM (fun t : gmap string (@value num) => d ← getitem t "date"; Ok (d, t))
    (map encode ts)
  = Ok (map (fun t => (@VStr num (date_string t), encode t)) ts).
Proof.
  induction ts as [|t ts IH]; [reflexivity|]. cbn [map mapM]. rewrite IH.
  by destruct t.
Qed.

Lemma string_keys_encode (ts : list (@Transaction num)) :
  string_keys (map (fun t => (@VStr num (date_string t), encode t)) ts)
  = Some (map (fun p => (fst p, encode (snd p)))
            (map (fun t => (date_string t, t)) ts)).
Proof.
  induction ts as [|t ts IH]; [reflexivity|]. cbn [map string_keys fst snd].
  by rewrite IH.
Qed.

Lemma rows_encode (l : list (string * @Transaction num)) :
  mapM (fun p : string * gmap string (@value num) =>
          create_list_row_modern (snd p) true)
    (map (fun p => (fst p, encode (snd p))) l)
  = Ok (map (row_of true) (map snd l)).
Proof.
  induction l as [|[k t] l IH]; [reflexivity|]. cbn [map mapM fst snd].
  by rewrite create_list_row_modern_encode, IH.
Qed.

Lemma filter_map_snd (d : string) (l : list (string * @Transaction num)) :
  Forall (fun p => fst p = date_string (snd p)) l ->
  List.filter (fun t => String.eqb (date_string t) d) (map snd l)
  = map snd (List.filter (fun p => String.eqb (fst p) d) l).
Proof.
  induction 1 as [|[k t] l Hk _ IH]; [reflexivity|].
  cbn [map List.filter fst snd] in *. rewrite <- Hk, IH.
  by destruct (String.eqb k d).
Qed.

(** X14.  The recent activity of the dashboard shows the ledger sorted by
    date, the newest first, and cut after twenty entries: the rows, without
    delete buttons, are those of [min 20 n] transactions that are dated no
    earlier than any transaction left out, each dated no earlier than the
    rows below it, and transactions of one date keep their ledger order. *)
Theorem dashboard_history_newest_twenty (st : app)
    (ts : list (@Transaction num)) :
  exists shown hidden : list (@Transaction num),
    update_dashboard_history (set_transactions (map encode ts) st)
    = Some (Ok (map (row_of true) shown))
    /\ length shown = Nat.min 20 (length ts)
    /\ Permutation (shown ++ hidden) ts
    /\ newest_first (shown ++ hidden)
    /\ forall d,
         List.filter (fun t => String.eqb (date_string t) d) (shown ++ hidden)
         = List.filter (fun t => String.eqb (date_string t) d) ts.
Proof.
  set (keyed := map (fun t : @Transaction num => (date_string t, t)) ts).
  destruct (sorted_desc_spec keyed) as (Hs & Hp & Hst).
  assert (Forall (fun p : string * @Transaction num =>
                    fst p = date_string (snd p)) keyed) as Hk.
  { unfold keyed. apply List.Forall_forall. intros p Hin.
    apply in_map_iff in Hin. by destruct Hin as (t & <- & _). }
  assert (Forall (fun p : string * @Transaction num =>
                    fst p = date_string (snd p)) (sorted_desc keyed)) as Hk'.
  { eapply Permutation_Forall; [symmetry; exact Hp|exact Hk]. }
  assert (map snd keyed = ts) as Hsnd.
  { unfold keyed. rewrite map_map. cbn [snd]. apply map_id. }
  exists (map snd (firstn 20 (sorted_desc keyed))),
    (map snd (skipn 20 (sorted_desc keyed))).
  split; [|split; [|split; [|split]]].
  - unfold update_dashboard_history. cbn [set_transactions transactions].
    rewrite keyed_encode, string_keys_encode. fold keyed.
    rewrite sorted_desc_map.
    rewrite firstn_map.
    by rewrite rows_encode.
  - rewrite length_map, length_firstn, (Permutation_length Hp).
    unfold keyed. by rewrite length_map.
  - rewrite <- map_app, firstn_skipn, <- Hsnd. by apply Permutation_map.
  - rewrite <- map_app, firstn_skipn. unfold newest_first.
    clear Hp Hst. induction Hs as [|p l Hs IH Hall]; [constructor|].
    apply Forall_cons in Hk' as [Hp' Hk']. cbn [map].
    constructor; [by apply IH|].
    apply List.Forall_forall. intros t Hin. apply in_map_iff in Hin.
    destruct Hin as (q & <- & Hin).
    rewrite List.Forall_forall in Hall, Hk'.
    rewrite <- Hp', <- (Hk' q Hin). by apply Hall.
  - intros d. rewrite <- map_app, firstn_skipn, <- Hsnd.
    rewrite !filter_map_snd; [|done..]. by rewrite Hst.
Qed.
End History.

(** * The connection string *)

Section Connection.

Lemma append_assoc (a b c : string) : (a +:+ b) +:+ c = a +:+ (b +:+ c).
Proof.
  induction a as [|x a IH]; [reflexivity|].
  rewrite !append_cons. by rewrite IH.
Qed.

Lemma index_cons_some sub c s :
  String.index 0 sub s <> None -> String.index 0 sub (String c s) <> None.
Proof.
  intros H. cbn [String.index].
  destruct (String.prefix sub (String c s)); [done|].
  by destruct (String.index 0 sub s).
Qed.

Lemma contains_app_suffix (p sub : string) :
  contains sub (p +:+ sub) = true.
Proof.
  unfold contains.
  assert (String.index 0 sub (p +:+ sub) <> None) as H;
    [|by destruct (String.index 0 sub (p +:+ sub))].
  induction p as [|c p IH].
  - change ("" +:+ sub) with sub. destruct sub as [|b sub]; [done|].
    cbn [String.index]. by rewrite prefix_refl.
  - rewrite append_cons. by apply index_cons_some.
Qed.

(** X15.  The connection string saved after the prompt always asks for
    SSL: whatever was typed and whatever [strip] removes, the saved string
    contains "sslmode=require" and starts with the stripped input; a
    stripped input that already asks for SSL is saved as it is, and
    otherwise what is added is "&sslmode=require" when the input has a "?"
    and "?sslmode=require" when it has none.  The prompt saves a string
    exactly when the input is neither missing nor empty. *)
Theorem with_sslmode_asks_for_ssl (strip : string -> string)
    (typed : string) :
  let saved := with_sslmode strip typed in
  contains "sslmode=require" saved = true
  /\ String.prefix (strip typed) saved = true
  /\ (contains "sslmode=require" (strip typed) = true ->
      saved = strip typed)
  /\ (contains "sslmode=require" (strip typed) = false ->
      saved = strip typed
              +:+ (if contains "?" (strip typed) then "&" else "?")
              +:+ "sslmode=require")
  /\ (forall get_input,
        prompt_db_url strip get_input = None
        <-> get_input = None \/ get_input = Some "").
Proof.
  cbv zeta.
  assert (contains "sslmode=require" (with_sslmode strip typed) = true) as H.
  { unfold with_sslmode. cbv zeta.
    destruct (contains "sslmode=require" (strip typed)) eqn:E; [exact E|].
    destruct (contains "?" (strip typed)).
    - change "&sslmode=require" with ("&" +:+ "sslmode=require").
      rewrite <- append_assoc. apply contains_app_suffix.
    - change "?sslmode=require" with ("?" +:+ "sslmode=require").
      rewrite <- append_assoc. apply contains_app_suffix. }
  split; [exact H|]. unfold with_sslmode. cbv zeta.
  split; [|split; [|split]].
  - destruct (contains "sslmode=require" (strip typed));
      [apply prefix_refl|].
    destruct (contains "?" (strip typed)); apply prefix_app_l.
  - by intros ->.
  - intros ->. by destruct (contains "?" (strip typed)).
  - intros [[|c s]|]; cbn [prompt_db_url]; split; try done; try tauto.
    + by intros [?|?].
Qed.
End Connection.

(** * Balances under the funds checks *)

Section Solvency.
Local Open Scope float_scope.

Lemma SFadd_nonneg (x y : spec_float) :
  SFnonneg x -> SFnonneg y -> SFnonneg (SFadd prec emax x y).
Proof.
  destruct x as [[|]|[|]| |[|] mx ex], y as [[|]|[|]| |[|] my ey];
    cbn [SFnonneg SFadd]; try done.
  intros _ _. apply binary_normalize_nonneg. cbn [cond_Zopp]. lia.
Qed.

Lemma SFsub_nonneg_finite (x y : spec_float) :
  SpecFloat.valid_binary prec emax x = true ->
  SpecFloat.valid_binary prec emax y = true ->
  SFnonneg x -> SFnonneg y ->
  SFltb y (S754_infinity false) = true ->
  SFleb y x = true ->
  SFnonneg (SFsub prec emax x y).
Proof.
  intros Vx Vy Hx Hy Fy Hle.
  destruct x as [sx|[|]| |sx mx ex] eqn:Ex.
  - rewrite <- Ex in *. apply SFsub_nonneg; try done. by subst x.
  - done.
  - by destruct y as [[|]|[|]| |[|] my ey].
  - done.
  - rewrite <- Ex in *. apply SFsub_nonneg; try done. subst x.
    by destruct sx.
Qed.

Lemma float_add_nonneg (x y : float) :
  (0 <=? x) = true -> (0 <=? y) = true -> (0 <=? x + y) = true.
Proof.
  rewrite !leb_zero_SFnonneg, add_spec. apply SFadd_nonneg.
Qed.

Lemma float_sub_nonneg_finite (x y : float) :
  (0 <=? x) = true -> (0 <=? y) = true -> (y <? infinity) = true ->
  (y <=? x) = true -> (0 <=? x - y) = true.
Proof.
  rewrite !leb_zero_SFnonneg, !ltb_infinity_spec, sub_spec.
  rewrite FloatAxioms.leb_spec.
  intros Hx Hy Fy Hle. apply SFsub_nonneg_finite; auto using Prim2SF_valid.
Qed.

Lemma leb_zero_not_nan (x : float) : (0 <=? x) = true -> is_nan x = false.
Proof.
  unfold is_nan. rewrite FloatAxioms.leb_spec, FloatAxioms.eqb_spec.
  rewrite Prim2SF_zero. unfold SFleb, SFeqb.
  destruct (Prim2SF x) as [[|]|[|]| |[|] mx ex]; cbn [SFcompare negb];
    try done.
  all: intros _; rewrite Z.compare_refl, Pos.compare_cont_refl; reflexivity.
Qed.

(** A funds check that lets a non-negative amount through means the
    balance covers it. *)
Lemma guard_covers (bal amt : float) :
  (0 <=? bal) = true -> (0 <=? amt) = true ->
  (bal <? amt) = false -> (amt <=? bal) = true.
Proof.
  intros Hb Ha. apply ltb_false_iff_leb; by apply leb_zero_not_nan.
Qed.

Lemma income_keeps_nonneg (st : @app float) (s : @stats float)
    id d c (g f : float) (b : bool) :
  calculate_stats st = Ok s -> balances_nonneg s ->
  (0 <=? g - f) = true ->
  exists s',
    calculate_stats
      (set_transactions
         (transactions st ++ [income_dict id d c g f (g - f) b]) st) = Ok s'
    /\ balances_nonneg s'.
Proof.
  intros Hs (H1 & H2 & H3) Hn.
  rewrite (calculate_stats_append st _ s Hs), balance_update_income.
  cbn [mbind result_bind]. rewrite month_update_income.
  eexists. split; [reflexivity|].
  unfold balances_nonneg.
  destruct (String.prefix _ d), b;
    cbn [usd_savings paypal_balance dzd_cash set_month_earned
         set_paypal_balance set_usd_savings];
    repeat split; try assumption;
    by apply (float_add_nonneg _ (g - f)).
Qed.

(** X16.  The funds checks keep one press from overdrawing: when the
    bank, PayPal and cash balances of the ledger in memory all compare
    greater than or equal to zero and the entered amounts are finite and
    not negative (a fee typed by hand between zero and the gross amount, a
    PayPal transfer covering its fee), then after the press, accepted or
    not and saved or not, [calculate_stats] returns on the ledger in memory
    and the three balances still compare greater than or equal to zero. *)
Theorem careful_press_keeps_nonneg (a : @action float) (uuid4 : string)
    (now : date) (saved : bool) (st : @app float) (s : @stats float) :
  calculate_stats st = Ok s -> balances_nonneg s -> careful_inputs a ->
  exists s',
    calculate_stats (fst (run a uuid4 now saved st)) = Ok s'
    /\ balances_nonneg s'.
Proof.
  intros Hs Hb [Hin Hfin].
  assert (exists s', calculate_stats st = Ok s' /\ balances_nonneg s')
    as Same by (by exists s).
  pose proof Hb as (H1 & H2 & H3).
  destruct a as [[g|] fee_val fee_type name chk|[amt|] method
                |[usd|] [rate|]|[amt|] curr cat desc];
    cbn [run nonneg_inputs] in *; try exact Same.
  - (* add_income *)
    destruct Hin as [[Hg Fg] Hfee]. unfold add_income.
    cbn [float_entry mbind result_bind].
    destruct (contains "Manual" fee_type).
    + destruct fee_val as [f|]; [|exact Same].
      destruct (Hfee eq_refl) as [Hf Hfg].
      cbn [try_except add_transaction_to_db fst].
      apply (income_keeps_nonneg st s); [done..|]. by apply float_sub_nonneg.
    + cbn [try_except add_transaction_to_db fst mbind result_bind].
      apply (income_keeps_nonneg st s); [done..|].
      destruct (contains "Upwork" fee_type).
      * apply float_sub_nonneg; [done..| |].
        -- by apply float_mul_nonneg.
        -- by apply float_tenth_le.
      * by apply float_sub_nonneg.
  - (* transfer_paypal_to_bank *)
    destruct Hin as [[Ha Fa] Hfee]. unfold transfer_paypal_to_bank.
    cbn [float_entry mbind result_bind]. rewrite Hs.
    cbn [mbind result_bind].
    destruct (insufficient_paypal s amt) eqn:Hg; [exact Same|].
    cbn [try_except add_transaction_to_db fst].
    rewrite (calculate_stats_append st _ s Hs), balance_update_paypal_bank.
    cbn [mbind result_bind]. rewrite month_update_paypal_bank.
    eexists. split; [reflexivity|]. unfold balances_nonneg.
    cbn [usd_savings paypal_balance dzd_cash set_paypal_balance
         set_usd_savings].
    assert ((0 <=? (if contains "Manual" method then 5 else 0)) = true)
      as Hfee0 by (by destruct (contains "Manual" method)).
    repeat split; [| |done].
    + apply float_add_nonneg; [done|]. by apply float_sub_nonneg.
    + apply float_sub_nonneg_finite; [done..|]. by apply guard_covers.
  - (* transfer_usd_to_dzd *)
    destruct Hin as [[Hu Fu] [Hr Fr]]. unfold transfer_usd_to_dzd.
    cbn [float_entry mbind result_bind]. rewrite Hs.
    cbn [mbind result_bind].
    destruct (insufficient_usd s usd) eqn:Hg; [exact Same|].
    cbn [try_except add_transaction_to_db fst].
    rewrite (calculate_stats_append st _ s Hs), balance_update_usd_dzd.
    cbn [mbind result_bind]. rewrite month_update_usd_dzd.
    eexists. split; [reflexivity|]. unfold balances_nonneg.
    cbn [usd_savings paypal_balance dzd_cash set_dzd_cash set_usd_savings].
    repeat split; [|done|].
    + apply float_sub_nonneg_finite; [done..|]. by apply guard_covers.
    + apply float_add_nonneg; [done|]. by apply float_mul_nonneg.
  - (* add_expense *)
    unfold add_expense. cbn [float_entry mbind result_bind]. rewrite Hs.
    cbn [mbind result_bind].
    destruct (insufficient_expense _ s amt) eqn:Hg; [exact Same|].
    cbn [try_except add_transaction_to_db fst].
    rewrite (calculate_stats_append st _ s Hs).
    revert Hg.
    replace (if contains "USD" curr then "USD" else "DZD")
      with (currency_code (if contains "USD" curr then USD else DZD))
      by (by destruct (contains "USD" curr)).
    intros Hg.
    rewrite balance_update_expense. cbn [mbind result_bind].
    rewrite month_update_expense.
    eexists. split; [reflexivity|]. unfold balances_nonneg.
    unfold insufficient_expense in Hg.
    destruct (contains "USD" curr); cbn in Hg; rewrite ?orb_false_r in Hg;
      destruct (String.prefix _ _);
      cbn [usd_savings paypal_balance dzd_cash set_usd_savings set_dzd_cash
           set_month_spent_usd set_month_spent_dzd];
      repeat split; try done;
      apply float_sub_nonneg_finite; try done; by apply guard_covers.
Qed.

End Solvency.

(** * The further theorems at concrete inputs *)

Section Instances.
Local Open Scope float_scope.

Lemma change_month_one_step_witness :
  (1 <= selected_month float_app_december <= 12)%Z
  /\ selected_year (change_month 1 float_app_december) = 2025%Z
  /\ selected_month (change_month 1 float_app_december) = 1%Z
  /\ month_index (change_month 1 float_app_december)
     = (month_index float_app_december + 1)%Z.
Proof.
  assert (1 <= selected_month float_app_december <= 12)%Z as H
    by (cbn; lia).
  split; [exact H|]. split; [reflexivity|]. split; [reflexivity|].
  exact (proj1 (change_month_one_step 1 float_app_december H)).
Defined.

Lemma change_month_round_trip_witness :
  (1 <= selected_month float_app_december <= 12)%Z
  /\ change_month (-1) (change_month 1 float_app_december)
     = float_app_december.
Proof.
  assert (1 <= selected_month float_app_december <= 12)%Z as H
    by (cbn; lia).
  split; [exact H|].
  exact (proj1 (change_month_round_trip float_app_december H)).
Defined.

Lemma get_monthly_key_inj_witness :
  get_monthly_key float_app0 = get_monthly_key float_app_paypal10
  /\ selected_year float_app0 = selected_year float_app_paypal10
  /\ selected_month float_app0 = selected_month float_app_paypal10.
Proof.
  assert (get_monthly_key float_app0 = get_monthly_key float_app_paypal10)
    as H by reflexivity.
  split; [exact H|].
  refine (get_monthly_key_inj float_app0 float_app_paypal10 _ _ H);
    cbn; lia.
Defined.

Lemma missing_type_blocks_guarded_actions_witness :
  transactions (set_transactions [∅] float_app0)
  = map encode (@nil (@Transaction float)) ++ ∅ :: []
  /\ (∅ : gmap string (@value float)) !! "type" = None
  /\ calculate_stats (set_transactions [∅] float_app0) = Raise KeyError
  /\ run (PressRecord (Some 1%float) "USD (Online)" "Other" "tea")
       "id" some_day true (set_transactions [∅] float_app0)
     = (set_transactions [∅] float_app0, ShowError "Error" "Invalid Input").
Proof.
  split; [reflexivity|]. split; [reflexivity|].
  pose proof (missing_type_blocks_guarded_actions
                (set_transactions [∅] float_app0) [] ∅ [] eq_refl eq_refl)
    as [H1 H2].
  split; [exact H1|].
  exact (H2 (PressRecord (Some 1%float) "USD (Online)" "Other" "tea")
           "id" some_day true I).
Defined.

Lemma unknown_kind_is_skipped_witness :
  note_dict !! "type" = Some (VStr "note")
  /\ note_dict !! "date" = Some (VStr "2024-03-01")
  /\ calculate_stats
       (set_transactions (transactions float_app_paypal10 ++ note_dict :: [])
          float_app0)
     = calculate_stats
         (set_transactions (transactions float_app_paypal10 ++ []) float_app0).
Proof.
  split; [reflexivity|]. split; [reflexivity|].
  exact (unknown_kind_is_skipped float_app0 (transactions float_app_paypal10)
           [] note_dict (VStr "note") "2024-03-01"
           eq_refl eq_refl eq_refl eq_refl eq_refl eq_refl).
Defined.

Lemma accepted_transfers_move_money_witness :
  calculate_stats float_app_paypal10
  = Ok {| usd_savings := 0; paypal_balance := 10; dzd_cash := 0;
          month_earned := 10; month_spent_usd := 0; month_spent_dzd := 0 |}
  /\ calculate_stats
       (fst (transfer_paypal_to_bank (Some 8%float) "Manual ($5 Fee)"
               "t" some_day true float_app_paypal10))
     = Ok {| usd_savings := 3; paypal_balance := 2; dzd_cash := 0;
             month_earned := 10; month_spent_usd := 0;
             month_spent_dzd := 0 |}.
Proof.
  assert (calculate_stats float_app_paypal10
          = Ok {| usd_savings := 0; paypal_balance := 10; dzd_cash := 0;
                  month_earned := 10; month_spent_usd := 0;
                  month_spent_dzd := 0 |}) as H by reflexivity.
  split; [exact H|].
  exact (proj2 (accepted_transfers_move_money float_app_paypal10 _
                  "t" some_day true H)
           8%float "Manual ($5 Fee)" eq_refl).
Defined.

Lemma add_income_updates_stats_witness :
  calculate_stats float_app0 = Ok stats0
  /\ valid_date some_day
  /\ (1 <= selected_month float_app0 <= 12)%Z
  /\ calculate_stats
       (fst (add_income (Some 1000%float) (Some 0%float) "Upwork (10%)"
               "job" "off" "i" some_day false float_app0))
     = Ok {| usd_savings := 900; paypal_balance := 0; dzd_cash := 0;
             month_earned := 900; month_spent_usd := 0;
             month_spent_dzd := 0 |}.
Proof.
  assert (valid_date some_day) as Hd by (repeat split; cbn; lia).
  assert (1 <= selected_month float_app0 <= 12)%Z as Hm by (cbn; lia).
  split; [reflexivity|]. split; [exact Hd|]. split; [exact Hm|].
  exact (add_income_updates_stats float_app0 stats0 1000%float 0%float
           "Upwork (10%)" "job" "off" "i" some_day false eq_refl Hd Hm).
Defined.

Lemma add_expense_updates_stats_witness :
  calculate_stats float_app_bank1000
  = Ok {| usd_savings := 1000; paypal_balance := 0; dzd_cash := 0;
          month_earned := 1000; month_spent_usd := 0; month_spent_dzd := 0 |}
  /\ valid_date some_day
  /\ (1 <= selected_month float_app_bank1000 <= 12)%Z
  /\ calculate_stats
       (fst (add_expense (Some 400%float) "USD (Online)" "Other" "rent"
               "e" some_day true float_app_bank1000))
     = Ok {| usd_savings := 600; paypal_balance := 0; dzd_cash := 0;
             month_earned := 1000; month_spent_usd := 400;
             month_spent_dzd := 0 |}.
Proof.
  assert (calculate_stats float_app_bank1000
          = Ok {| usd_savings := 1000; paypal_balance := 0; dzd_cash := 0;
                  month_earned := 1000; month_spent_usd := 0;
                  month_spent_dzd := 0 |}) as H by reflexivity.
  assert (valid_date some_day) as Hd by (repeat split; cbn; lia).
  assert (1 <= selected_month float_app_bank1000 <= 12)%Z as Hm
    by (cbn; lia).
  split; [exact H|]. split; [exact Hd|]. split; [exact Hm|].
  exact (add_expense_updates_stats float_app_bank1000 _ 400%float
           "USD (Online)" "Other" "rent" "e" some_day true H Hd Hm eq_refl).
Defined.

Lemma income_list_matches_month_earned_witness :
  Forall (fun t => valid_date (txn_date t)) float_three_months
  /\ (1 <= selected_month float_app0 <= 12)%Z
  /\ update_income_list
       (set_transactions (map encode float_three_months) float_app0)
     = Ok [row_of false
             (Income "a" {| year := 2024; month := 3; day := 31 |}
                "job" 10%float 0%float 10%float false)].
Proof.
  assert (Forall (fun t => valid_date (txn_date t)) float_three_months) as H1.
  { repeat constructor; cbn; lia. }
  assert (1 <= selected_month float_app0 <= 12)%Z as H2 by (cbn; lia).
  split; [exact H1|]. split; [exact H2|].
  exact (proj1 (income_list_matches_month_earned float_app0
                  float_three_months H1 H2)).
Defined.

Lemma expense_list_matches_month_spent_witness :
  Forall (fun t => valid_date (txn_date t)) float_expenses
  /\ (1 <= selected_month float_app0 <= 12)%Z
  /\ update_expense_list
       (set_transactions (map encode float_expenses) float_app0)
     = Ok [row_of false
             (Expense "y" {| year := 2024; month := 3; day := 9 |}
                "Food - dates" 1500%float DZD);
           row_of false
             (Expense "x" {| year := 2024; month := 3; day := 2 |}
                "Food - bread" 30%float USD)].
Proof.
  assert (Forall (fun t => valid_date (txn_date t)) float_expenses) as H1.
  { repeat constructor; cbn; lia. }
  assert (1 <= selected_month float_app0 <= 12)%Z as H2 by (cbn; lia).
  split; [exact H1|]. split; [exact H2|].
  exact (proj1 (expense_list_matches_month_spent float_app0
                  float_expenses H1 H2)).
Defined.

Lemma careful_press_keeps_nonneg_witness :
  calculate_stats float_app_bank1000
  = Ok {| usd_savings := 1000; paypal_balance := 0; dzd_cash := 0;
          month_earned := 1000; month_spent_usd := 0; month_spent_dzd := 0 |}
  /\ careful_inputs (PressConfirmSale (Some 500) (Some 200))
  /\ exists s',
       calculate_stats
         (fst (run (PressConfirmSale (Some 500) (Some 200)) "t" some_day
                 false float_app_bank1000)) = Ok s'
       /\ balances_nonneg s'.
Proof.
  assert (calculate_stats float_app_bank1000
          = Ok {| usd_savings := 1000; paypal_balance := 0; dzd_cash := 0;
                  month_earned := 1000; month_spent_usd := 0;
                  month_spent_dzd := 0 |}) as H by reflexivity.
  assert (careful_inputs (PressConfirmSale (Some 500) (Some 200))) as Hc.
  { repeat split. }
  split; [exact H|]. split; [exact Hc|].
  refine (careful_press_keeps_nonneg _ "t" some_day false
            float_app_bank1000 _ H _ Hc).
  repeat split.
Defined.
End Instances.
